(** * libdns/acmedns: credential selection and the single-endpoint update

    A shallow embedding of the ACME-DNS provider for libdns.  Go strings
    are byte sequences and are modelled by [string]; the account table
    [map[string]DomainConfig] is a [gmap] wrapped in [option], because the
    code distinguishes a nil map from a non-nil one; the outbound HTTP
    traffic is an explicit log threaded through a small monad, in which a
    Go run-time panic is an outcome of its own. *)

From Stdlib Require Import ZArith Lia String Ascii List DecimalString.
From stdpp Require Import base option gmap strings.
Import ListNotations.

Local Open Scope string_scope.
Local Open Scope Z_scope.

(** ** Strings: the few operations of Go's [strings] package in use *)

Module strings.

(** [len(s)], a Go [int]. *)
Definition len (s : string) : Z := Z.of_nat (String.length s).

(** [strings.HasPrefix(s, prefix)]. *)
Definition HasPrefix (s prefix : string) : bool := String.prefix prefix s.

(** [s[n:]] for [0 <= n <= len(s)]. *)
Fixpoint drop (n : nat) (s : string) : string :=
  match n, s with
  | O, _ => s
  | S n', String _ s' => drop n' s'
  | S _, EmptyString => EmptyString
  end.

(** [strings.TrimPrefix(s, prefix)]: [s] without the leading [prefix],
    or [s] itself when it does not start with [prefix]. *)
Definition TrimPrefix (s prefix : string) : string :=
  if HasPrefix s prefix then drop (String.length prefix) s else s.

(** [trimLeftByte(s, c)]: drop leading bytes equal to [c]. *)
Fixpoint trimLeftByte (s : string) (c : ascii) : string :=
  match s with
  | String a s' => if Ascii.eqb a c then trimLeftByte s' c else s
  | EmptyString => s
  end.

(** [trimRightByte(s, c)]: drop trailing bytes equal to [c]. *)
Fixpoint trimRightByte (s : string) (c : ascii) : string :=
  match s with
  | EmptyString => EmptyString
  | String a s' =>
      match trimRightByte s' c with
      | EmptyString => if Ascii.eqb a c then EmptyString else String a EmptyString
      | t => String a t
      end
  end.

(** [strings.Trim(s, cutset)] for a cutset of one ASCII byte, the only
    form the provider calls: the fast path
    [trimLeftByte(trimRightByte(s, c), c)]. *)
Definition Trim (s : string) (c : ascii) : string :=
  trimLeftByte (trimRightByte s c) c.

(** [strings.HasSuffix(s, suffix)]. *)
Definition HasSuffix (s suffix : string) : bool :=
  (String.length suffix <=? String.length s)%nat
  && String.eqb (drop (String.length s - String.length suffix) s) suffix.

(** A slice expression [s[lo:hi]]; out-of-range bounds are a run-time
    panic in Go, [None] here. *)
Definition slice (s : string) (lo hi : Z) : option string :=
  if (0 <=? lo) && (lo <=? hi) && (hi <=? len s)
  then Some (substring (Z.to_nat lo) (Z.to_nat (hi - lo)) s)
  else None.

End strings.

(** ** libdns (external dependency) *)

Module libdns.

(** [libdns.RR]: the resource-record view of a record. *)
Record RR := mkRR {
  Name : string;
  TTL : Z;
  Type_ : string;
  Data : string
}.

(** [libdns.AbsoluteName(name, zone)] of [github.com/libdns/libdns]:
    the dot-trimmed name for an empty zone, the zone itself for the
    names [""] and ["@"], and otherwise the name, a joining dot unless
    the name already ends in one, and the zone.  The properties below
    that go beyond this definition concern the apex name ["@"] and names
    without a trailing dot only. *)
Definition AbsoluteName (name zone : string) : string :=
  if String.eqb zone "" then strings.Trim name "."
  else if String.eqb name "" || String.eqb name "@" then zone
  else if strings.HasSuffix name "." then name ++ zone
  else name ++ "." ++ zone.

End libdns.

(** ** Data model *)

Definition acmePrefix : string := "_acme-challenge.".

Record DomainConfig := mkDomainConfig {
  dc_Username : string;
  dc_Password : string;
  dc_Subdomain : string;
  dc_FullDomain : string;
  dc_ServerURL : string
}.

(** [Configs] is [None] for a nil map. *)
Record Provider := mkProvider {
  Configs : option (gmap string DomainConfig);
  p_Username : string;
  p_Password : string;
  p_Subdomain : string;
  p_ServerURL : string
}.

Record account := mkAccount {
  Username : string;
  Password : string;
  Subdomain : string;
  ServerURL : string
}.

(** Go [error] values: [fmt.Errorf] without [%w] yields a plain message,
    with [%w] an error that wraps its argument; [foreign] stands for an
    error made by a library (the HTTP transport, the JSON encoder). *)
Inductive error :=
| errorString (msg : string)
| wrapError (msg : string) (err : error)
| foreign (msg : string).

Definition Error (e : error) : string :=
  match e with
  | errorString m => m
  | wrapError m _ => m
  | foreign m => m
  end.

(** [fmt.Errorf(prefix + "%w", err)]. *)
Definition Errorf_w (prefix : string) (err : error) : error :=
  wrapError (prefix ++ Error err) err.

(** A [(T, error)] result of which exactly one half is meaningful. *)
Inductive result (A : Type) :=
| Ok (a : A)
| Err (e : error).
Arguments Ok {A} a.
Arguments Err {A} e.

(** ** Account selector (resource-record variant) *)

Definition account_of_config (config : DomainConfig) : account :=
  {| Username := dc_Username config;
     Password := dc_Password config;
     Subdomain := dc_Subdomain config;
     ServerURL := dc_ServerURL config |}.

Definition selectAccount (p : Provider) (zone name : string) : result account :=
  match Configs p with
  | Some configs =>
      let domain := libdns.AbsoluteName name zone in
      let domain := strings.Trim domain "." in
      let domain := strings.TrimPrefix domain acmePrefix in
      match configs !! domain with
      | None => Err (errorString ("Config for domain " ++ domain ++ " not found"))
      | Some config => Ok (account_of_config config)
      end
  | None =>
      if String.eqb (p_Username p) "" then Err (errorString "Username cannot be empty")
      else if String.eqb (p_Password p) "" then Err (errorString "Password cannot be empty")
      else if String.eqb (p_Subdomain p) "" then Err (errorString "Subdomain cannot be empty")
      else if String.eqb (p_ServerURL p) "" then Err (errorString "ServerURL cannot be empty")
      else Ok {| Username := p_Username p;
                 Password := p_Password p;
                 Subdomain := p_Subdomain p;
                 ServerURL := p_ServerURL p |}
  end.

(** ** The HTTP client and the JSON encoder (Go standard library) *)

Module http.

(** The part of [http.Request] the provider sets.  [Header] maps a
    canonical header name to its values, as [http.Header] does. *)
Record Request := mkRequest {
  Method : string;
  URL : string;
  Header : gmap string (list string);
  Body : string
}.

Record Response := mkResponse { StatusCode : Z }.

(** [req.Header.Set(key, value)]; the three keys the provider uses are
    already in canonical form. *)
Definition Header_Set (req : Request) (key value : string) : Request :=
  {| Method := Method req;
     URL := URL req;
     Header := <[ key := [value] ]> (Header req);
     Body := Body req |}.

End http.

(** What the surroundings decide: whether [net/url] accepts a URL, the
    bytes [encoding/json] produces for a [map[string]string], and what
    the network answers to a request, given the requests sent so far. *)
Record Env := mkEnv {
  url_Parse : string -> option error;
  json_Marshal : gmap string string -> result string;
  client_Do : list http.Request -> http.Request -> result http.Response
}.

(** How a call ends: it returns, or the goroutine panics. *)
Inductive outcome (A : Type) :=
| Returns (a : A)
| Panics (msg : string).
Arguments Returns {A} a.
Arguments Panics {A} msg.

(** Computations that may send requests: the log holds, oldest first,
    every request handed to [client.Do]. *)
Definition M (A : Type) : Type := list http.Request -> outcome A * list http.Request.

Definition ret {A} (a : A) : M A := fun w => (Returns a, w).

Definition bind {A B} (m : M A) (f : A -> M B) : M B :=
  fun w =>
    match m w with
    | (Returns a, w') => f a w'
    | (Panics msg, w') => (Panics msg, w')
    end.

Definition panic {A} (msg : string) : M A := fun w => (Panics msg, w).

Notation "'let*' x := m 'in' k" := (bind m (fun x => k))
  (at level 10, x name, m at level 100, k at level 200).

Definition nil_dereference : string :=
  "runtime error: invalid memory address or nil pointer dereference".

Definition index_out_of_range : string :=
  "runtime error: slice bounds out of range".

(** [%d] of an [int]. *)
Definition itoa (n : Z) : string := NilZero.string_of_int (Z.to_int n).

Section Provider.

Variable E : Env.

(** [http.NewRequest(method, url, body)] for a valid method: it fails
    exactly when the URL does not parse, and then returns a nil
    request together with the error. *)
Definition http_NewRequest (method url : string) (body : string) : result http.Request :=
  match url_Parse E url with
  | Some err => Err err
  | None => Ok {| http.Method := method; http.URL := url;
                  http.Header := ∅; http.Body := body |}
  end.

(** [client.Do(req)]: the request goes out and the answer comes back. *)
Definition http_Do (req : http.Request) : M (result http.Response) :=
  fun w => (Returns (client_Do E w req), (w ++ [req])%list).

(** ** Record updater *)

Definition updateTxtValue (acc : account) (value : string) : M (option error) :=
  match json_Marshal E {[ "subdomain" := Subdomain acc; "txt" := value ]} with
  | Err err => ret (Some (Errorf_w "Error while marshalling JSON: " err))
  | Ok body =>
      match http_NewRequest "POST" (ServerURL acc ++ "/update") body with
      | Err _ =>
          (* err is not inspected; req is nil and req.Header is read *)
          panic nil_dereference
      | Ok req =>
          let req := http.Header_Set req "X-Api-User" (Username acc) in
          let req := http.Header_Set req "X-Api-Key" (Password acc) in
          let req := http.Header_Set req "Content-Type" "application/json" in
          let* resp := http_Do req in
          match resp with
          | Err err => ret (Some (Errorf_w "Error while reading response: " err))
          | Ok resp =>
              if negb (http.StatusCode resp =? 200)
              then ret (Some (errorString
                     ("Updating ACME-DNS record resulted in response code "
                      ++ itoa (http.StatusCode resp))))
              else ret None
          end
      end
  end.

(** ** Orchestration *)

(** A [libdns.Record] is anything with an [RR()] method: a record type
    of libdns itself, or the provider's own [acmeDNSRecord]. *)
Inductive Record_ :=
| libdnsRecord (rr : libdns.RR)
| acmeDNSRecord (rr : libdns.RR).

Definition RR (r : Record_) : libdns.RR :=
  match r with
  | libdnsRecord rr => rr
  | acmeDNSRecord rr => rr
  end.

(** The [for ... range recs] loop of [AppendRecords], with the slice
    built so far as an accumulator. *)
Fixpoint AppendRecords_loop (p : Provider) (zone : string)
    (recs appendedRecords : list Record_) : M (list Record_ * option error) :=
  match recs with
  | [] => ret (appendedRecords, None)
  | record :: recs' =>
      let rr := RR record in
      if negb (String.eqb (libdns.Type_ rr) "TXT")
      then ret (appendedRecords,
                Some (errorString "joohoi_acme_dns provider only supports adding TXT records"))
      else
        match selectAccount p zone (libdns.Name rr) with
        | Err err => ret (appendedRecords, Some err)
        | Ok acc =>
            let* err := updateTxtValue acc (libdns.Data rr) in
            match err with
            | Some err => ret (appendedRecords, Some err)
            | None =>
                AppendRecords_loop p zone recs'
                  (appendedRecords ++
                     [acmeDNSRecord {| libdns.Type_ := "TXT";
                                       libdns.Name := libdns.Name rr;
                                       libdns.TTL := 0;
                                       libdns.Data := libdns.Data rr |}])%list
            end
        end
  end.

(** The [ctx] argument of the four methods is never read and is left
    out.  A nil slice and an empty one are both the empty list. *)
Definition AppendRecords (p : Provider) (zone : string) (recs : list Record_)
  : M (list Record_ * option error) :=
  AppendRecords_loop p zone recs [].

Definition DeleteRecords (p : Provider) (zone : string) (recs : list Record_)
  : M (list Record_ * option error) :=
  ret ([], None).

Definition SetRecords (p : Provider) (zone : string) (recs : list Record_)
  : M (list Record_ * option error) :=
  AppendRecords p zone recs.

Definition GetRecords (p : Provider) (zone : string)
  : M (list Record_ * option error) :=
  ret ([], Some (errorString "acmedns provider does not support getting records")).

End Provider.

(** ** The older flat-field variant ([provider.go])

    It differs in three places: the lookup key is cut out with slice
    expressions, which panic on a short domain; no [Content-Type] header
    is set; and a record is a flat struct, not a resource-record view. *)

Module Legacy.

(** [libdns.Record] as a struct. *)
Record Record_ := mkRecord {
  ID : string;
  Type_ : string;
  Name : string;
  Value : string;
  TTL : Z;
  Priority : Z
}.

Definition obind {A B} (o : outcome A) (f : A -> outcome B) : outcome B :=
  match o with
  | Returns a => f a
  | Panics msg => Panics msg
  end.

Notation "'let!' x := o 'in' k" := (obind o (fun x => k))
  (at level 10, x name, o at level 100, k at level 200).

(** [s[lo:hi]], panicking when out of range. *)
Definition slice (s : string) (lo hi : Z) : outcome string :=
  match strings.slice s lo hi with
  | Some t => Returns t
  | None => Panics index_out_of_range
  end.

Definition selectAccount (p : Provider) (zone name : string) : outcome (result account) :=
  match Configs p with
  | Some configs =>
      let domain := name ++ "." ++ zone in
      let! last := slice domain (strings.len domain - 1) (strings.len domain) in
      let! domain :=
        (if String.eqb last "."
         then slice domain 0 (strings.len domain - 1)
         else Returns domain) in
      let! head := slice domain 0 (strings.len acmePrefix) in
      let! domain :=
        (if String.eqb head acmePrefix
         then slice domain (strings.len acmePrefix) (strings.len domain)
         else Returns domain) in
      match configs !! domain with
      | None => Returns (Err (errorString ("Config for domain " ++ domain ++ " not found")))
      | Some config => Returns (Ok (account_of_config config))
      end
  | None =>
      Returns
        (if String.eqb (p_Username p) "" then Err (errorString "Username cannot be empty")
         else if String.eqb (p_Password p) "" then Err (errorString "Password cannot be empty")
         else if String.eqb (p_Subdomain p) "" then Err (errorString "Subdomain cannot be empty")
         else if String.eqb (p_ServerURL p) "" then Err (errorString "ServerURL cannot be empty")
         else Ok {| Username := p_Username p;
                    Password := p_Password p;
                    Subdomain := p_Subdomain p;
                    ServerURL := p_ServerURL p |})
  end.

Section Provider.

Variable E : Env.

Definition updateTxtValue (acc : account) (value : string) : M (option error) :=
  match json_Marshal E {[ "subdomain" := Subdomain acc; "txt" := value ]} with
  | Err err => ret (Some (Errorf_w "Error while marshalling JSON: " err))
  | Ok body =>
      match http_NewRequest E "POST" (ServerURL acc ++ "/update") body with
      | Err _ => panic nil_dereference
      | Ok req =>
          let req := http.Header_Set req "X-Api-User" (Username acc) in
          let req := http.Header_Set req "X-Api-Key" (Password acc) in
          let* resp := http_Do E req in
          match resp with
          | Err err => ret (Some (Errorf_w "Error while reading response: " err))
          | Ok resp =>
              if negb (http.StatusCode resp =? 200)
              then ret (Some (errorString
                     ("Updating ACME-DNS record resulted in response code "
                      ++ itoa (http.StatusCode resp))))
              else ret None
          end
      end
  end.

Fixpoint AppendRecords_loop (p : Provider) (zone : string)
    (recs appendedRecords : list Record_) : M (list Record_ * option error) :=
  match recs with
  | [] => ret (appendedRecords, None)
  | record :: recs' =>
      if negb (String.eqb (Type_ record) "TXT")
      then ret (appendedRecords,
                Some (errorString "joohoi_acme_dns provider only supports adding TXT records"))
      else
        match selectAccount p zone (Name record) with
        | Panics msg => panic msg
        | Returns (Err err) => ret (appendedRecords, Some err)
        | Returns (Ok acc) =>
            let* err := updateTxtValue acc (Value record) in
            match err with
            | Some err => ret (appendedRecords, Some err)
            | None =>
                AppendRecords_loop p zone recs'
                  (appendedRecords ++
                     [{| ID := ""; Type_ := "TXT"; Name := Name record;
                         Value := Value record; TTL := 0; Priority := 0 |}])%list
            end
        end
  end.

Definition AppendRecords (p : Provider) (zone : string) (recs : list Record_)
  : M (list Record_ * option error) :=
  AppendRecords_loop p zone recs [].

Definition DeleteRecords (p : Provider) (zone : string) (recs : list Record_)
  : M (list Record_ * option error) :=
  ret ([], None).

(** The record appended for an applied record. *)
Definition normalize (r : Record_) : Record_ :=
  {| ID := ""; Type_ := "TXT"; Name := Name r; Value := Value r;
     TTL := 0; Priority := 0 |}.

(** One turn of the loop on a record that is applied. *)
Definition applied (p : Provider) (zone : string) (r : Record_)
    (w w' : list http.Request) : Prop :=
  Type_ r = "TXT"
  /\ exists acc,
       selectAccount p zone (Name r) = Returns (Ok acc)
       /\ updateTxtValue acc (Value r) w = (Returns None, w').

(** One turn of the loop on a record that fails with [e]. *)
Definition fails (p : Provider) (zone : string) (r : Record_)
    (w : list http.Request) (e : error) (w' : list http.Request) : Prop :=
  (Type_ r <> "TXT"
   /\ e = errorString "joohoi_acme_dns provider only supports adding TXT records"
   /\ w' = w)
  \/ (Type_ r = "TXT" /\ selectAccount p zone (Name r) = Returns (Err e) /\ w' = w)
  \/ (Type_ r = "TXT"
      /\ exists acc,
           selectAccount p zone (Name r) = Returns (Ok acc)
           /\ updateTxtValue acc (Value r) w = (Returns (Some e), w')).

(** A run of applied records, the log threaded through. *)
Inductive all_applied (p : Provider) (zone : string)
  : list Record_ -> list http.Request -> list http.Request -> Prop :=
| all_applied_nil w : all_applied p zone [] w w
| all_applied_cons r recs w w1 w2 :
    applied p zone r w w1 -> all_applied p zone recs w1 w2 ->
    all_applied p zone (r :: recs) w w2.

End Provider.

End Legacy.

(** ** A sample of the surroundings

    Enough of the Go standard library to run the provider on concrete
    inputs.  [url.Parse] is represented by two of its checks, the
    rejection of ASCII control bytes and of a leading colon (a scheme
    separator with no scheme before it); the JSON encoder writes the keys
    in byte order and escapes as [encoding/json] does for ASCII, copying
    bytes from 0x80 on unchanged. *)

Module GoEnv.

Definition dquote : string := String "034"%char EmptyString.
Definition backslash : string := String "092"%char EmptyString.

Definition isCTL (c : ascii) : bool :=
  let n := nat_of_ascii c in ((n <? 32) || (n =? 127))%nat.

Fixpoint stringContainsCTLByte (s : string) : bool :=
  match s with
  | EmptyString => false
  | String c s' => isCTL c || stringContainsCTLByte s'
  end.

Definition url_Parse (rawURL : string) : option error :=
  if stringContainsCTLByte rawURL
  then Some (foreign "net/url: invalid control character in URL")
  else if strings.HasPrefix rawURL ":"
  then Some (foreign "missing protocol scheme")
  else None.

Definition hexdigit (n : nat) : ascii :=
  if (n <? 10)%nat then ascii_of_nat (48 + n) else ascii_of_nat (87 + n).

Definition escapeByte (c : ascii) : string :=
  let n := nat_of_ascii c in
  if (n =? 34)%nat || (n =? 92)%nat then backslash ++ String c EmptyString
  else if (n =? 8)%nat then backslash ++ "b"
  else if (n =? 12)%nat then backslash ++ "f"
  else if (n =? 10)%nat then backslash ++ "n"
  else if (n =? 13)%nat then backslash ++ "r"
  else if (n =? 9)%nat then backslash ++ "t"
  else if (n <? 32)%nat || (n =? 60)%nat || (n =? 62)%nat || (n =? 38)%nat
  then backslash ++ "u00"
       ++ String (hexdigit (n / 16)) (String (hexdigit (n mod 16)) EmptyString)
  else String c EmptyString.

Fixpoint escape (s : string) : string :=
  match s with
  | EmptyString => EmptyString
  | String c s' => escapeByte c ++ escape s'
  end.

Definition quote (s : string) : string := dquote ++ escape s ++ dquote.

Fixpoint insert_sorted (kv : string * string) (l : list (string * string))
  : list (string * string) :=
  match l with
  | [] => [kv]
  | kv' :: l' =>
      if String.leb (fst kv) (fst kv') then kv :: l else kv' :: insert_sorted kv l'
  end.

Definition sort_keys (l : list (string * string)) : list (string * string) :=
  fold_right insert_sorted [] l.

Fixpoint members (l : list (string * string)) : string :=
  match l with
  | [] => ""
  | [(k, v)] => quote k ++ ":" ++ quote v
  | (k, v) :: l' => quote k ++ ":" ++ quote v ++ "," ++ members l'
  end.

Definition json_Marshal (m : gmap string string) : result string :=
  Ok ("{" ++ members (sort_keys (map_to_list m)) ++ "}").

(** A server that answers every request with the given status. *)
Definition always (status : Z) : Env :=
  mkEnv url_Parse json_Marshal (fun _ _ => Ok {| http.StatusCode := status |}).

(** A server that answers the [n]-th request (counting from 0) with
    [status] and every other one with 200. *)
Definition failing_at (n : nat) (status : Z) : Env :=
  mkEnv url_Parse json_Marshal
    (fun w _ => Ok {| http.StatusCode := if (length w =? n)%nat then status else 200 |}).

(** A network that is down. *)
Definition unreachable : Env :=
  mkEnv url_Parse json_Marshal (fun _ _ => Err (foreign "dial tcp: connection refused")).

End GoEnv.

(** ** The account selector as the specification words it *)

Module Spec.

(** [trim_trailing_dot]: one dot less at the end, if there is one. *)
Fixpoint trim_trailing_dot (s : string) : string :=
  match s with
  | EmptyString => EmptyString
  | String a s' =>
      match s' with
      | EmptyString => if Ascii.eqb a "." then EmptyString else s
      | String _ _ => String a (trim_trailing_dot s')
      end
  end.

(** Strip the literal prefix [_acme-challenge.] once, if it is there. *)
Definition strip_prefix (s : string) : string :=
  if String.prefix acmePrefix s then strings.drop (String.length acmePrefix) s else s.

(** The bare domain of step 1. *)
Definition lookup_key (zone name : string) : string :=
  strip_prefix (trim_trailing_dot (name ++ "." ++ zone)).

(** Looking a bare domain up in the table. *)
Definition lookup (configs : gmap string DomainConfig) (domain : string) : result account :=
  match configs !! domain with
  | None => Err (errorString ("Config for domain " ++ domain ++ " not found"))
  | Some config => Ok (account_of_config config)
  end.

(** The normalized record [{type: TXT, name, value}]. *)
Definition normalize (r : Record_) : Record_ :=
  acmeDNSRecord {| libdns.Type_ := "TXT";
                   libdns.Name := libdns.Name (RR r);
                   libdns.TTL := 0;
                   libdns.Data := libdns.Data (RR r) |}.

(** The request of the wire protocol: [POST <serverURL>/update] with the
    three headers and the given body. *)
Definition update_request (acc : account) (body : string) : http.Request :=
  {| http.Method := "POST";
     http.URL := ServerURL acc ++ "/update";
     http.Header := {[ "X-Api-User" := [Username acc];
                       "X-Api-Key" := [Password acc];
                       "Content-Type" := ["application/json"] ]};
     http.Body := body |}.

(** The same request as the older variant sends it, without a
    [Content-Type]. *)
Definition update_request_bare (acc : account) (body : string) : http.Request :=
  {| http.Method := "POST";
     http.URL := ServerURL acc ++ "/update";
     http.Header := {[ "X-Api-User" := [Username acc];
                       "X-Api-Key" := [Password acc] ]};
     http.Body := body |}.

(** What the update reports for an answer of the network. *)
Definition update_verdict (answer : result http.Response) : option error :=
  match answer with
  | Ok resp =>
      if http.StatusCode resp =? 200 then None
      else Some (errorString ("Updating ACME-DNS record resulted in response code "
                              ++ itoa (http.StatusCode resp)))
  | Err err => Some (Errorf_w "Error while reading response: " err)
  end.

(** *** Turns of the append loop *)

Section Turns.

Variable E : Env.
Variable p : Provider.
Variable zone : string.

Definition unsupported : error :=
  errorString "joohoi_acme_dns provider only supports adding TXT records".

(** One turn of the loop on a record that is applied. *)
Definition applied (r : Record_) (w w' : list http.Request) : Prop :=
  libdns.Type_ (RR r) = "TXT"
  /\ exists acc,
       selectAccount p zone (libdns.Name (RR r)) = Ok acc
       /\ updateTxtValue E acc (libdns.Data (RR r)) w = (Returns None, w').

(** One turn of the loop on a record that fails with [e]. *)
Definition fails (r : Record_) (w : list http.Request) (e : error)
    (w' : list http.Request) : Prop :=
  (libdns.Type_ (RR r) <> "TXT" /\ e = unsupported /\ w' = w)
  \/ (libdns.Type_ (RR r) = "TXT"
      /\ selectAccount p zone (libdns.Name (RR r)) = Err e /\ w' = w)
  \/ (libdns.Type_ (RR r) = "TXT"
      /\ exists acc,
           selectAccount p zone (libdns.Name (RR r)) = Ok acc
           /\ updateTxtValue E acc (libdns.Data (RR r)) w = (Returns (Some e), w')).

(** A run of applied records, the log threaded through. *)
Inductive all_applied : list Record_ -> list http.Request -> list http.Request -> Prop :=
| all_applied_nil w : all_applied [] w w
| all_applied_cons r recs w w1 w2 :
    applied r w w1 -> all_applied recs w1 w2 -> all_applied (r :: recs) w w2.

(** The request that an applied or update-failed record [r] has caused:
    the update request of the account selected for its name, carrying
    the encoding of that account's subdomain and the record's data. *)
Definition sent_for (r : Record_) (req : http.Request) : Prop :=
  libdns.Type_ (RR r) = "TXT"
  /\ exists acc body,
       selectAccount p zone (libdns.Name (RR r)) = Ok acc
       /\ json_Marshal E {[ "subdomain" := Subdomain acc;
                            "txt" := libdns.Data (RR r) ]} = Ok body
       /\ req = update_request acc body.

End Turns.

(** What [AppendRecords] reads of a record. *)
Definition view (r : Record_) : string * string * string :=
  (libdns.Type_ (RR r), libdns.Name (RR r), libdns.Data (RR r)).

(** What the older [AppendRecords] reads of a record. *)
Definition legacy_view (r : Legacy.Record_) : string * string * string :=
  (Legacy.Type_ r, Legacy.Name r, Legacy.Value r).

(** The account of a flat configuration. *)
Definition static_account (p : Provider) : account :=
  {| Username := p_Username p; Password := p_Password p;
     Subdomain := p_Subdomain p; ServerURL := p_ServerURL p |}.

End Spec.

(** ** Sample inputs *)

Module Sample.

Definition cfg0 : DomainConfig :=
  mkDomainConfig "u" "p" "sd" "sd.auth.example" "https://auth.example".

Definition table0 : gmap string DomainConfig := {[ "example.com" := cfg0 ]}.

(** A table next to fully populated static fields. *)
Definition prov0 : Provider :=
  mkProvider (Some table0) "static-user" "static-pass" "static-sd" "https://static.example".

(** A flat configuration. *)
Definition flat0 : Provider := mkProvider None "u" "p" "sd" "https://auth.example".

Definition acc0 : account := mkAccount "u" "p" "sd" "https://auth.example".

(** Credentials whose server URL does not parse. *)
Definition acc_bad : account := mkAccount "u" "p" "sd" ":".

Definition q (s : string) : string := GoEnv.dquote ++ s ++ GoEnv.dquote.

Definition body0 : string :=
  "{" ++ q "subdomain" ++ ":" ++ q "sd" ++ "," ++ q "txt" ++ ":" ++ q "abc123" ++ "}".

Definition body_of (value : string) : string :=
  "{" ++ q "subdomain" ++ ":" ++ q "sd" ++ "," ++ q "txt" ++ ":" ++ q value ++ "}".

Definition txt (name value : string) : Record_ :=
  libdnsRecord {| libdns.Name := name; libdns.TTL := 300;
                  libdns.Type_ := "TXT"; libdns.Data := value |}.

Definition r1 : Record_ := txt "_acme-challenge" "one".
Definition r2 : Record_ := txt "_acme-challenge.www" "two".
Definition r3 : Record_ := txt "_acme-challenge.api" "three".

Definition rA : Record_ :=
  libdnsRecord {| libdns.Name := "www"; libdns.TTL := 300;
                  libdns.Type_ := "A"; libdns.Data := "192.0.2.1" |}.

Definition cfg1 : DomainConfig :=
  mkDomainConfig "u1" "p1" "sd1" "sd1.auth.example" "https://auth1.example".

Definition acc1 : account := mkAccount "u1" "p1" "sd1" "https://auth1.example".

(** A table with an entry for a domain and one for a name under it. *)
Definition table1 : gmap string DomainConfig :=
  {[ "example.com" := cfg0; "www.example.com" := cfg1 ]}.

Definition prov1 : Provider :=
  mkProvider (Some table1) "static-user" "static-pass" "static-sd" "https://static.example".

Definition legacy_txt (name value : string) : Legacy.Record_ :=
  {| Legacy.ID := "id"; Legacy.Type_ := "TXT"; Legacy.Name := name;
     Legacy.Value := value; Legacy.TTL := 300; Legacy.Priority := 0 |}.

Definition l1 : Legacy.Record_ := legacy_txt "_acme-challenge" "one".
Definition l2 : Legacy.Record_ := legacy_txt "_acme-challenge.www" "two".
Definition l3 : Legacy.Record_ := legacy_txt "_acme-challenge.api" "three".

(** An address record with a short name. *)
Definition lA : Legacy.Record_ :=
  {| Legacy.ID := "id"; Legacy.Type_ := "A"; Legacy.Name := "@";
     Legacy.Value := "192.0.2.1"; Legacy.TTL := 300; Legacy.Priority := 0 |}.

End Sample.

(** * Properties *)

(** ** Strings *)

Lemma substring_to_end (n : nat) (s : string) :
  substring n (String.length s - n) s = strings.drop n s.
Proof.
  revert n; induction s as [|a s IH]; intros [|n]; simpl; auto.
  - f_equal. specialize (IH 0%nat). now rewrite Nat.sub_0_r in IH.
Qed.

Lemma HasSuffix_cons (a : ascii) (s suffix : string) :
  (String.length suffix <= String.length s)%nat ->
  strings.HasSuffix (String a s) suffix = strings.HasSuffix s suffix.
Proof.
  intros Hle. unfold strings.HasSuffix. cbn [String.length].
  replace (S (String.length s) - String.length suffix)%nat
    with (S (String.length s - String.length suffix)) by lia.
  cbn [strings.drop].
  destruct (Nat.leb_spec (String.length suffix) (String.length s)); [|lia].
  destruct (Nat.leb_spec (String.length suffix) (S (String.length s))); [|lia].
  reflexivity.
Qed.

Lemma HasSuffix_dot_single (a : ascii) :
  strings.HasSuffix (String a "") "." = Ascii.eqb a ".".
Proof.
  unfold strings.HasSuffix; simpl.
  destruct (Ascii.eqb_spec a "."); subst; simpl; auto.
Qed.

Lemma HasPrefix_dot (s : string) :
  strings.HasPrefix s "." =
  match s with String a _ => Ascii.eqb a "." | EmptyString => false end.
Proof.
  destruct s as [|a s]; [reflexivity|].
  unfold strings.HasPrefix. cbn [String.prefix].
  destruct (ascii_dec "." a) as [<-|Hne].
  - now destruct s.
  - destruct (Ascii.eqb_spec a "."); congruence.
Qed.

(** One trailing dot fewer is all that [trimRightByte] removes, unless
    the string ends in two dots. *)
Lemma trimRightByte_one (s : string) :
  strings.HasSuffix s ".." = false ->
  strings.trimRightByte s "." = Spec.trim_trailing_dot s.
Proof.
  induction s as [|a s IH]; [reflexivity|].
  destruct s as [|b s]; [reflexivity|].
  destruct s as [|c s].
  - unfold strings.HasSuffix. simpl.
    destruct (Ascii.eqb_spec a "."), (Ascii.eqb_spec b "."); subst; simpl;
      try reflexivity; try discriminate.
    all: destruct (Ascii.eqb b "."); try reflexivity.
  - intros H. rewrite HasSuffix_cons in H by (simpl; lia).
    specialize (IH H).
    change (strings.trimRightByte (String a (String b (String c s))) ".")
      with (match strings.trimRightByte (String b (String c s)) "." with
            | EmptyString => if Ascii.eqb a "." then EmptyString else String a EmptyString
            | t => String a t
            end).
    rewrite IH.
    change (Spec.trim_trailing_dot (String a (String b (String c s))))
      with (String a (Spec.trim_trailing_dot (String b (String c s)))).
    reflexivity.
Qed.

Lemma trim_trailing_dot_head (a : ascii) (s : string) :
  s <> "" ->
  exists t, Spec.trim_trailing_dot (String a s) = String a t.
Proof. destruct s; [congruence|]. intros _. eexists. reflexivity. Qed.

Lemma append_nonempty_r (s t : string) : t <> "" -> s ++ t <> "".
Proof. destruct s; simpl; [auto|discriminate]. Qed.

(** On an ordinary relative name and zone, the key of the code is the
    key of the specification. *)
Lemma Trim_AbsoluteName_ordinary (zone name : string) :
  name <> "" -> name <> "@" ->
  strings.HasPrefix name "." = false ->
  strings.HasSuffix name "." = false ->
  zone <> "" ->
  strings.HasSuffix (name ++ "." ++ zone) ".." = false ->
  strings.Trim (libdns.AbsoluteName name zone) "."
  = Spec.trim_trailing_dot (name ++ "." ++ zone).
Proof.
  intros Hn Hat Hpre Hsuf Hz Hdd.
  unfold libdns.AbsoluteName.
  destruct (String.eqb_spec zone ""); [congruence|].
  destruct (String.eqb_spec name ""); [congruence|].
  destruct (String.eqb_spec name "@"); [congruence|].
  cbn [orb]. rewrite Hsuf.
  unfold strings.Trim. rewrite trimRightByte_one by exact Hdd.
  destruct name as [|a name]; [congruence|].
  rewrite HasPrefix_dot in Hpre.
  destruct (trim_trailing_dot_head a (name ++ "." ++ zone)) as [t Ht].
  { apply append_nonempty_r. discriminate. }
  change (String a name ++ "." ++ zone) with (String a (name ++ "." ++ zone)).
  rewrite Ht. cbn [strings.trimLeftByte]. now rewrite Hpre.
Qed.

(** ** Slice expressions of the older variant *)

Lemma slice_in_range (s : string) (lo hi : Z) :
  0 <= lo -> lo <= hi -> hi <= strings.len s ->
  Legacy.slice s lo hi = Returns (substring (Z.to_nat lo) (Z.to_nat (hi - lo)) s).
Proof.
  intros H1 H2 H3. unfold Legacy.slice, strings.slice.
  destruct (Z.leb_spec 0 lo); [|lia].
  destruct (Z.leb_spec lo hi); [|lia].
  destruct (Z.leb_spec hi (strings.len s)); [|lia].
  reflexivity.
Qed.

Lemma slice_beyond (s : string) (lo hi : Z) :
  strings.len s < hi ->
  Legacy.slice s lo hi = Panics index_out_of_range.
Proof.
  intros H. unfold Legacy.slice, strings.slice.
  destruct (Z.leb_spec hi (strings.len s)); [lia|].
  now rewrite andb_false_r.
Qed.

Lemma substring_init (s : string) :
  strings.HasSuffix s "." = true ->
  substring 0 (String.length s - 1) s = Spec.trim_trailing_dot s.
Proof.
  induction s as [|a s IH]; [reflexivity|].
  destruct s as [|b s].
  - rewrite HasSuffix_dot_single. intros H. apply Ascii.eqb_eq in H. now subst.
  - rewrite HasSuffix_cons by (simpl; lia). intros H. specialize (IH H).
    change (Spec.trim_trailing_dot (String a (String b s)))
      with (String a (Spec.trim_trailing_dot (String b s))).
    rewrite <- IH. cbn [String.length]. rewrite !Nat.sub_succ, !Nat.sub_0_r.
    reflexivity.
Qed.

Lemma trim_trailing_dot_none (s : string) :
  strings.HasSuffix s "." = false -> Spec.trim_trailing_dot s = s.
Proof.
  induction s as [|a s IH]; [reflexivity|].
  destruct s as [|b s].
  - rewrite HasSuffix_dot_single. intros H. cbn [Spec.trim_trailing_dot]. now rewrite H.
  - rewrite HasSuffix_cons by (simpl; lia). intros H.
    change (Spec.trim_trailing_dot (String a (String b s)))
      with (String a (Spec.trim_trailing_dot (String b s))).
    now rewrite IH.
Qed.

(** [domain[len(domain)-1:] == "."] followed by [domain[:len(domain)-1]]. *)
Lemma legacy_trailing_dot {A} (d : string) (k : string -> outcome A) :
  d <> "" ->
  Legacy.obind (Legacy.slice d (strings.len d - 1) (strings.len d))
    (fun last =>
       Legacy.obind
         (if String.eqb last "."
          then Legacy.slice d 0 (strings.len d - 1)
          else Returns d) k)
  = k (Spec.trim_trailing_dot d).
Proof.
  intros Hd.
  assert (Hlen : (1 <= String.length d)%nat) by (destruct d; [congruence|simpl; lia]).
  rewrite slice_in_range by (unfold strings.len; lia).
  cbn [Legacy.obind].
  replace (Z.to_nat (strings.len d - 1)) with (String.length d - 1)%nat
    by (unfold strings.len; lia).
  replace (Z.to_nat (strings.len d - (strings.len d - 1)))
    with (String.length d - (String.length d - 1))%nat
    by (unfold strings.len; lia).
  rewrite substring_to_end.
  assert (Hs : strings.HasSuffix d "." =
               String.eqb (strings.drop (String.length d - 1) d) ".").
  { unfold strings.HasSuffix. cbn [String.length].
    destruct (Nat.leb_spec 1 (String.length d)); [reflexivity|lia]. }
  rewrite <- Hs.
  destruct (strings.HasSuffix d ".") eqn:Hdot.
  - rewrite slice_in_range by (unfold strings.len; lia).
    cbn [Legacy.obind]. rewrite Z.sub_0_r. change (Z.to_nat 0) with 0%nat.
    replace (Z.to_nat (strings.len d - 1)) with (String.length d - 1)%nat
      by (unfold strings.len; lia).
    now rewrite substring_init.
  - cbn [Legacy.obind]. now rewrite trim_trailing_dot_none.
Qed.

Lemma prefix_substring (s1 s2 : string) :
  String.eqb (substring 0 (String.length s1) s2) s1 = String.prefix s1 s2.
Proof.
  destruct (String.prefix s1 s2) eqn:H.
  - apply prefix_correct in H. rewrite H. apply String.eqb_refl.
  - destruct (String.eqb_spec (substring 0 (String.length s1) s2) s1) as [Heq|]; auto.
    apply prefix_correct in Heq. congruence.
Qed.

(** [domain[:len(acmePrefix)] == acmePrefix] followed by
    [domain[len(acmePrefix):]], on a domain that is long enough. *)
Lemma legacy_prefix {A} (d : string) (k : string -> outcome A) :
  strings.len acmePrefix <= strings.len d ->
  Legacy.obind (Legacy.slice d 0 (strings.len acmePrefix))
    (fun head =>
       Legacy.obind
         (if String.eqb head acmePrefix
          then Legacy.slice d (strings.len acmePrefix) (strings.len d)
          else Returns d) k)
  = k (Spec.strip_prefix d).
Proof.
  intros Hlen.
  rewrite slice_in_range by (unfold strings.len in *; simpl in *; lia).
  cbn [Legacy.obind]. rewrite Z.sub_0_r. change (Z.to_nat 0) with 0%nat.
  replace (Z.to_nat (strings.len acmePrefix)) with (String.length acmePrefix)
    by (unfold strings.len; lia).
  rewrite prefix_substring. unfold Spec.strip_prefix.
  destruct (String.prefix acmePrefix d).
  - rewrite slice_in_range by (unfold strings.len in *; simpl in *; lia).
    cbn [Legacy.obind].
    replace (Z.to_nat (strings.len acmePrefix)) with (String.length acmePrefix)
      by (unfold strings.len; lia).
    replace (Z.to_nat (strings.len d - strings.len acmePrefix))
      with (String.length d - String.length acmePrefix)%nat
      by (unfold strings.len; lia).
    now rewrite substring_to_end.
  - reflexivity.
Qed.

(** ** Account selector *)

(** With a table, the resource-record variant looks up the absolute name
    with its outer dots and one challenge prefix removed. *)
Lemma selectAccount_table (p : Provider) (m : gmap string DomainConfig) (zone name : string) :
  Configs p = Some m ->
  selectAccount p zone name
  = Spec.lookup m (strings.TrimPrefix (strings.Trim (libdns.AbsoluteName name zone) ".") acmePrefix).
Proof. intros H. unfold selectAccount, Spec.lookup. now rewrite H. Qed.

(** With a table, the older variant looks up the key of the
    specification, provided the dot-trimmed domain is at least as long
    as the prefix. *)
Lemma Legacy_selectAccount_table (p : Provider) (m : gmap string DomainConfig) (zone name : string) :
  Configs p = Some m ->
  strings.len acmePrefix <= strings.len (Spec.trim_trailing_dot (name ++ "." ++ zone)) ->
  Legacy.selectAccount p zone name = Returns (Spec.lookup m (Spec.lookup_key zone name)).
Proof.
  intros H Hlen. unfold Legacy.selectAccount. rewrite H.
  rewrite legacy_trailing_dot by (apply append_nonempty_r; discriminate).
  rewrite legacy_prefix by exact Hlen.
  unfold Spec.lookup, Spec.lookup_key.
  now destruct (m !! _).
Qed.

(** On a shorter domain the older variant panics. *)
Lemma Legacy_selectAccount_short (p : Provider) (m : gmap string DomainConfig) (zone name : string) :
  Configs p = Some m ->
  strings.len (Spec.trim_trailing_dot (name ++ "." ++ zone)) < strings.len acmePrefix ->
  Legacy.selectAccount p zone name = Panics index_out_of_range.
Proof.
  intros H Hlen. unfold Legacy.selectAccount. rewrite H.
  rewrite legacy_trailing_dot by (apply append_nonempty_r; discriminate).
  now rewrite slice_beyond.
Qed.

(** C1, as amended.  With an account table the resource-record variant
    looks up the absolute name made by libdns, with all leading and
    trailing dots and then at most one leading [_acme-challenge.]
    removed.  For a non-empty relative name other than [@] without a
    leading or trailing dot and a non-empty zone, the joined name not
    ending in two dots, that key is the one of the specification: name,
    dot and zone joined, one trailing dot stripped, one prefix stripped.
    The older variant looks up the specification's key whenever the
    dot-stripped domain is at least as long as the prefix.  For the zone
    [example.com] and the name [_acme-challenge] the key is
    [example.com]. *)
Theorem selectAccount_lookup_key
    (p : Provider) (m : gmap string DomainConfig) (zone name : string) :
  Configs p = Some m ->
  selectAccount p zone name
  = Spec.lookup m
      (strings.TrimPrefix (strings.Trim (libdns.AbsoluteName name zone) ".") acmePrefix)
  /\ (name <> "" -> name <> "@" ->
      strings.HasPrefix name "." = false ->
      strings.HasSuffix name "." = false ->
      zone <> "" ->
      strings.HasSuffix (name ++ "." ++ zone) ".." = false ->
      selectAccount p zone name = Spec.lookup m (Spec.lookup_key zone name))
  /\ (strings.len acmePrefix <= strings.len (Spec.trim_trailing_dot (name ++ "." ++ zone)) ->
      Legacy.selectAccount p zone name
      = Returns (Spec.lookup m (Spec.lookup_key zone name)))
  /\ selectAccount p "example.com" "_acme-challenge" = Spec.lookup m "example.com"
  /\ Spec.lookup_key "example.com" "_acme-challenge" = "example.com".
Proof.
  intros Hm. split; [now apply selectAccount_table|]. split; [|split].
  - intros Hn Hat Hpre Hsuf Hz Hdd.
    rewrite (selectAccount_table p m) by exact Hm.
    rewrite Trim_AbsoluteName_ordinary by assumption.
    reflexivity.
  - intros Hlen. now apply Legacy_selectAccount_table.
  - split; [|reflexivity]. now rewrite (selectAccount_table p m).
Qed.

Lemma selectAccount_lookup_key_witness :
  selectAccount Sample.prov0 "example.com." "_acme-challenge" = Ok Sample.acc0
  /\ Legacy.selectAccount Sample.prov0 "example.com." "_acme-challenge"
     = Returns (Ok Sample.acc0).
Proof.
  destruct (selectAccount_lookup_key Sample.prov0 Sample.table0
              "example.com." "_acme-challenge" eq_refl) as (_ & H2 & H3 & _).
  split.
  - rewrite H2; [reflexivity| discriminate | discriminate
                | reflexivity | reflexivity | discriminate | reflexivity].
  - rewrite H3; [reflexivity | vm_compute; discriminate].
Defined.

(** C1 as stated fails: for the apex name [@] libdns returns the zone
    itself, so the table is asked for [example.com], not for
    [@.example.com]. *)
Lemma selectAccount_lookup_key_counterexample :
  selectAccount Sample.prov0 "example.com" "@" = Ok Sample.acc0
  /\ Spec.lookup Sample.table0 (Spec.lookup_key "example.com" "@")
     = Err (errorString "Config for domain @.example.com not found")
  /\ ~ (forall p m zone name,
          Configs p = Some m ->
          selectAccount p zone name = Spec.lookup m (Spec.lookup_key zone name)).
Proof.
  assert (H1 : selectAccount Sample.prov0 "example.com" "@" = Ok Sample.acc0)
    by (vm_compute; reflexivity).
  assert (H2 : Spec.lookup Sample.table0 (Spec.lookup_key "example.com" "@")
               = Err (errorString "Config for domain @.example.com not found"))
    by (vm_compute; reflexivity).
  split; [exact H1|]. split; [exact H2|].
  intros H. specialize (H Sample.prov0 Sample.table0 "example.com" "@" eq_refl).
  rewrite H1, H2 in H. discriminate.
Qed.

(** C5.  With a table present the static fields play no part: the
    outcome is the table lookup whatever they hold, and a key missing
    from the table is a "Config for domain ... not found" error. *)
Theorem selectAccount_table_miss
    (m : gmap string DomainConfig) (user pass sub url zone name : string) :
  let key := strings.TrimPrefix
               (strings.Trim (libdns.AbsoluteName name zone) ".") acmePrefix in
  selectAccount (mkProvider (Some m) user pass sub url) zone name
  = selectAccount (mkProvider (Some m) "" "" "" "") zone name
  /\ (m !! key = None ->
      selectAccount (mkProvider (Some m) user pass sub url) zone name
      = Err (errorString ("Config for domain " ++ key ++ " not found"))).
Proof.
  intros key. split; [reflexivity|].
  intros Hnone. unfold selectAccount. cbn [Configs].
  fold key. now rewrite Hnone.
Qed.

Lemma selectAccount_table_miss_witness :
  selectAccount Sample.prov0 "example.org" "_acme-challenge"
  = Err (errorString "Config for domain example.org not found").
Proof.
  apply (selectAccount_table_miss Sample.table0 "static-user" "static-pass"
           "static-sd" "https://static.example" "example.org" "_acme-challenge").
  vm_compute. reflexivity.
Defined.

(** Without a table both variants validate alike. *)
Lemma Legacy_flat_agrees (p : Provider) (zone name : string) :
  Configs p = None ->
  Legacy.selectAccount p zone name = Returns (selectAccount p zone name).
Proof. intros H. unfold Legacy.selectAccount, selectAccount. now rewrite H. Qed.

(** C6.  Without a table the fields are checked in the order username,
    password, subdomain, server URL; the first empty one decides the
    error, which names it; with none empty the account is made of
    exactly these four fields.  The older variant does the same. *)
Theorem selectAccount_flat (p : Provider) (zone name : string) :
  Configs p = None ->
  (p_Username p = "" ->
   selectAccount p zone name = Err (errorString "Username cannot be empty"))
  /\ (p_Username p <> "" -> p_Password p = "" ->
      selectAccount p zone name = Err (errorString "Password cannot be empty"))
  /\ (p_Username p <> "" -> p_Password p <> "" -> p_Subdomain p = "" ->
      selectAccount p zone name = Err (errorString "Subdomain cannot be empty"))
  /\ (p_Username p <> "" -> p_Password p <> "" -> p_Subdomain p <> "" ->
      p_ServerURL p = "" ->
      selectAccount p zone name = Err (errorString "ServerURL cannot be empty"))
  /\ (p_Username p <> "" -> p_Password p <> "" -> p_Subdomain p <> "" ->
      p_ServerURL p <> "" ->
      selectAccount p zone name
      = Ok {| Username := p_Username p; Password := p_Password p;
              Subdomain := p_Subdomain p; ServerURL := p_ServerURL p |})
  /\ Legacy.selectAccount p zone name = Returns (selectAccount p zone name).
Proof.
  intros Hnil. unfold selectAccount at 1 2 3 4 5. rewrite Hnil.
  destruct (String.eqb_spec (p_Username p) ""), (String.eqb_spec (p_Password p) ""),
    (String.eqb_spec (p_Subdomain p) ""), (String.eqb_spec (p_ServerURL p) "");
    repeat split; intros; try congruence; now apply Legacy_flat_agrees.
Qed.

Lemma selectAccount_flat_witness :
  selectAccount (mkProvider None "" "p" "sd" "https://auth.example") "example.com" "www"
  = Err (errorString "Username cannot be empty")
  /\ selectAccount (mkProvider None "u" "" "" "") "example.com" "www"
     = Err (errorString "Password cannot be empty")
  /\ selectAccount (mkProvider None "u" "p" "" "") "example.com" "www"
     = Err (errorString "Subdomain cannot be empty")
  /\ selectAccount (mkProvider None "u" "p" "sd" "") "example.com" "www"
     = Err (errorString "ServerURL cannot be empty")
  /\ selectAccount Sample.flat0 "example.com" "www" = Ok Sample.acc0.
Proof.
  split; [|split; [|split; [|split]]].
  - apply (selectAccount_flat (mkProvider None "" "p" "sd" "https://auth.example")
             "example.com" "www" eq_refl). reflexivity.
  - apply (selectAccount_flat (mkProvider None "u" "" "" "")
             "example.com" "www" eq_refl); [discriminate | reflexivity].
  - apply (selectAccount_flat (mkProvider None "u" "p" "" "")
             "example.com" "www" eq_refl); [discriminate | discriminate | reflexivity].
  - apply (selectAccount_flat (mkProvider None "u" "p" "sd" "")
             "example.com" "www" eq_refl);
      [discriminate | discriminate | discriminate | reflexivity].
  - apply (selectAccount_flat Sample.flat0 "example.com" "www" eq_refl); discriminate.
Defined.

(** ** Record updater *)

Section Updater.

Variable E : Env.

(** When the payload encodes and the URL parses, one request goes out
    and the answer decides the result. *)
Lemma updateTxtValue_sends (acc : account) (value body : string) (w : list http.Request) :
  json_Marshal E {[ "subdomain" := Subdomain acc; "txt" := value ]} = Ok body ->
  url_Parse E (ServerURL acc ++ "/update") = None ->
  updateTxtValue E acc value w
  = (Returns (Spec.update_verdict (client_Do E w (Spec.update_request acc body))),
     (w ++ [Spec.update_request acc body])%list).
Proof.
  intros Hjson Hurl. unfold updateTxtValue, http_NewRequest.
  rewrite Hjson, Hurl. unfold bind, http_Do, http.Header_Set. simpl.
  change {| http.Method := "POST"; http.URL := ServerURL acc ++ "/update";
            http.Header :=
              <[ "Content-Type" := ["application/json"] ]>
                (<[ "X-Api-Key" := [Password acc] ]>
                   (<[ "X-Api-User" := [Username acc] ]> ∅));
            http.Body := body |}
    with (Spec.update_request acc body).
  destruct (client_Do E w (Spec.update_request acc body)) as [resp|err]; simpl;
    [|reflexivity].
  destruct (Z.eqb_spec (http.StatusCode resp) 200); reflexivity.
Qed.

(** When the URL does not parse, the unchecked nil request is
    dereferenced: no request goes out and nothing is returned. *)
Lemma updateTxtValue_nil_request (acc : account) (value body : string)
    (err : error) (w : list http.Request) :
  json_Marshal E {[ "subdomain" := Subdomain acc; "txt" := value ]} = Ok body ->
  url_Parse E (ServerURL acc ++ "/update") = Some err ->
  updateTxtValue E acc value w = (Panics nil_dereference, w)
  /\ Legacy.updateTxtValue E acc value w = (Panics nil_dereference, w).
Proof.
  intros Hjson Hurl.
  unfold updateTxtValue, Legacy.updateTxtValue, http_NewRequest.
  now rewrite Hjson, Hurl.
Qed.

End Updater.

(** ** Orchestration *)

Section Orchestration.

Variable E : Env.
Variable p : Provider.
Variable zone : string.

Local Abbreviation applied := (Spec.applied E p zone).
Local Abbreviation fails := (Spec.fails E p zone).
Local Abbreviation all_applied := (Spec.all_applied E p zone).
Local Abbreviation unsupported := Spec.unsupported.

Ltac loop_step r w :=
  cbn [AppendRecords_loop];
  destruct (String.eqb_spec (libdns.Type_ (RR r)) "TXT") as [Htxt|Htxt];
  cbn [negb];
  [ destruct (selectAccount p zone (libdns.Name (RR r))) as [acc|err] eqn:Hsel;
    [ unfold bind;
      destruct (updateTxtValue E acc (libdns.Data (RR r)) w) as [[[err|]|msg] w1] eqn:Hupd;
      cbv beta iota
    | ]
  | ].

(** The accumulator is only ever extended. *)
Lemma AppendRecords_loop_acc (recs done : list Record_) (w : list http.Request) :
  AppendRecords_loop E p zone recs done w
  = match AppendRecords_loop E p zone recs [] w with
    | (Returns (l, e), w') => (Returns ((done ++ l)%list, e), w')
    | (Panics msg, w') => (Panics msg, w')
    end.
Proof.
  revert done w. induction recs as [|r recs IH]; intros done w.
  - cbn. now rewrite app_nil_r.
  - loop_step r w; try (cbn; now rewrite ?app_nil_r).
    rewrite (IH (done ++ _)%list), (IH ([] ++ _)%list).
    destruct (AppendRecords_loop E p zone recs [] w1) as [[[l e]|msg] w2];
      [|reflexivity].
    now rewrite <- app_assoc.
Qed.

(** A run on one record either applies it, fails on it, or panics. *)
Lemma AppendRecords_single (r : Record_) (w : list http.Request) :
  match AppendRecords E p zone [r] w with
  | (Returns (l, None), w') => l = [Spec.normalize r] /\ applied r w w'
  | (Returns (l, Some e), w') => l = [] /\ fails r w e w'
  | (Panics _, _) => True
  end.
Proof.
  unfold AppendRecords, Spec.applied, Spec.fails. loop_step r w; cbn; try exact I.
  - split; [reflexivity|]. right; right. eauto.
  - split; [reflexivity|]. eauto.
  - split; [reflexivity|]. right; left. eauto.
  - split; [reflexivity|]. left. auto.
Qed.

Lemma AppendRecords_cons_applied (r : Record_) (recs : list Record_)
    (w w1 : list http.Request) :
  applied r w w1 ->
  AppendRecords E p zone (r :: recs) w
  = match AppendRecords E p zone recs w1 with
    | (Returns (l, e), w') => (Returns (Spec.normalize r :: l, e), w')
    | (Panics msg, w') => (Panics msg, w')
    end.
Proof.
  intros (Htxt & acc & Hsel & Hupd). unfold AppendRecords.
  cbn [AppendRecords_loop].
  destruct (String.eqb_spec (libdns.Type_ (RR r)) "TXT"); [|congruence].
  cbn [negb]. rewrite Hsel. unfold bind. rewrite Hupd. cbv beta iota.
  now rewrite AppendRecords_loop_acc.
Qed.

Lemma AppendRecords_cons_fails (r : Record_) (recs : list Record_)
    (w w1 : list http.Request) (e : error) :
  fails r w e w1 ->
  AppendRecords E p zone (r :: recs) w = (Returns ([], Some e), w1).
Proof.
  unfold AppendRecords.
  intros [(Htxt & -> & ->) | [(Htxt & Hsel & ->) | (Htxt & acc & Hsel & Hupd)]];
    cbn [AppendRecords_loop].
  - destruct (String.eqb_spec (libdns.Type_ (RR r)) "TXT"); [congruence|reflexivity].
  - destruct (String.eqb_spec (libdns.Type_ (RR r)) "TXT"); [|congruence].
    cbn [negb]. now rewrite Hsel.
  - destruct (String.eqb_spec (libdns.Type_ (RR r)) "TXT"); [|congruence].
    cbn [negb]. rewrite Hsel. unfold bind. now rewrite Hupd.
Qed.

Lemma AppendRecords_app (pre rest : list Record_) (w w1 : list http.Request) :
  all_applied pre w w1 ->
  AppendRecords E p zone (pre ++ rest) w
  = match AppendRecords E p zone rest w1 with
    | (Returns (l, e), w') => (Returns ((map Spec.normalize pre ++ l)%list, e), w')
    | (Panics msg, w') => (Panics msg, w')
    end.
Proof.
  induction 1 as [w|r recs w w1 w2 Hr _ IH].
  - cbn [app map]. now destruct (AppendRecords E p zone rest w) as [[[l e]|msg] w'].
  - cbn [app map]. rewrite (AppendRecords_cons_applied r _ w w1 Hr), IH.
    now destruct (AppendRecords E p zone rest w2) as [[[l e]|msg] w'].
Qed.

(** A run without error applied every record. *)
Lemma AppendRecords_success (recs l : list Record_) (w w' : list http.Request) :
  AppendRecords E p zone recs w = (Returns (l, None), w') ->
  l = map Spec.normalize recs /\ all_applied recs w w'.
Proof.
  revert l w. induction recs as [|r recs IH]; intros l w.
  - cbn. intros [= <- <-]. split; [reflexivity|constructor].
  - unfold AppendRecords. loop_step r w; cbn; try discriminate.
    rewrite AppendRecords_loop_acc.
    destruct (AppendRecords_loop E p zone recs [] w1) as [[[l1 e]|msg] w2] eqn:Hrest;
      [|discriminate].
    intros [= <- -> <-]. destruct (IH l1 w1 Hrest) as [-> Hall].
    split; [reflexivity|].
    econstructor; [|exact Hall]. split; [exact Htxt|]. eauto.
Qed.

(** A run that ends in an error stopped at the first record that
    failed, with the records before it applied. *)
Lemma AppendRecords_failure (recs l : list Record_) (e : error)
    (w w' : list http.Request) :
  AppendRecords E p zone recs w = (Returns (l, Some e), w') ->
  exists pre r post w1,
    recs = (pre ++ r :: post)%list
    /\ all_applied pre w w1 /\ fails r w1 e w'
    /\ l = map Spec.normalize pre.
Proof.
  revert l w. induction recs as [|r recs IH]; intros l w.
  - cbn. discriminate.
  - pose proof (AppendRecords_single r w) as Hone.
    unfold AppendRecords in *. revert Hone. loop_step r w; cbn.
    + intros [_ Hf] [= <- <- <-]. exists [], r, recs, w.
      repeat split; [constructor | exact Hf].
    + intros [_ Ha]. rewrite AppendRecords_loop_acc.
      destruct (AppendRecords_loop E p zone recs [] w1) as [[[l1 e1]|msg] w2] eqn:Hrest;
        [|discriminate].
      intros [= <- -> <-].
      destruct (IH l1 w1 Hrest) as (pre & r' & post & w3 & -> & Hall & Hf & ->).
      exists (r :: pre), r', post, w3.
      repeat split; [econstructor; eassumption | exact Hf].
    + discriminate.
    + intros [_ Hf] [= <- <- <-]. exists [], r, recs, w.
      repeat split; [constructor | exact Hf].
    + intros [_ Hf] [= <- <- <-]. exists [], r, recs, w.
      repeat split; [constructor | exact Hf].
Qed.

End Orchestration.

(** The same loop in the older variant. *)

Section LegacyOrchestration.

Variable E : Env.
Variable p : Provider.
Variable zone : string.

Lemma Legacy_loop_acc (recs done : list Legacy.Record_) (w : list http.Request) :
  Legacy.AppendRecords_loop E p zone recs done w
  = match Legacy.AppendRecords_loop E p zone recs [] w with
    | (Returns (l, e), w') => (Returns ((done ++ l)%list, e), w')
    | (Panics msg, w') => (Panics msg, w')
    end.
Proof.
  revert done w. induction recs as [|r recs IH]; intros done w.
  - cbn. now rewrite app_nil_r.
  - cbn [Legacy.AppendRecords_loop].
    destruct (negb (String.eqb (Legacy.Type_ r) "TXT"));
      [cbn; now rewrite app_nil_r|].
    destruct (Legacy.selectAccount p zone (Legacy.Name r)) as [[acc|err]|msg];
      [|cbn; now rewrite app_nil_r|reflexivity].
    unfold bind.
    destruct (Legacy.updateTxtValue E acc (Legacy.Value r) w) as [[[err|]|msg] w1];
      [cbn; now rewrite app_nil_r| |reflexivity].
    rewrite (IH (done ++ _)%list), (IH ([] ++ _)%list).
    destruct (Legacy.AppendRecords_loop E p zone recs [] w1) as [[[l e]|msg] w2];
      [|reflexivity].
    now rewrite <- app_assoc.
Qed.

Lemma Legacy_cons_applied (r : Legacy.Record_) (recs : list Legacy.Record_)
    (w w1 : list http.Request) :
  Legacy.applied E p zone r w w1 ->
  Legacy.AppendRecords E p zone (r :: recs) w
  = match Legacy.AppendRecords E p zone recs w1 with
    | (Returns (l, e), w') => (Returns (Legacy.normalize r :: l, e), w')
    | (Panics msg, w') => (Panics msg, w')
    end.
Proof.
  intros (Htxt & acc & Hsel & Hupd). unfold Legacy.AppendRecords.
  cbn [Legacy.AppendRecords_loop].
  destruct (String.eqb_spec (Legacy.Type_ r) "TXT"); [|congruence].
  cbn [negb]. rewrite Hsel. unfold bind. rewrite Hupd. cbv beta iota.
  now rewrite Legacy_loop_acc.
Qed.

Lemma Legacy_cons_fails (r : Legacy.Record_) (recs : list Legacy.Record_)
    (w w1 : list http.Request) (e : error) :
  Legacy.fails E p zone r w e w1 ->
  Legacy.AppendRecords E p zone (r :: recs) w = (Returns ([], Some e), w1).
Proof.
  unfold Legacy.AppendRecords.
  intros [(Htxt & -> & ->) | [(Htxt & Hsel & ->) | (Htxt & acc & Hsel & Hupd)]];
    cbn [Legacy.AppendRecords_loop].
  - destruct (String.eqb_spec (Legacy.Type_ r) "TXT"); [congruence|reflexivity].
  - destruct (String.eqb_spec (Legacy.Type_ r) "TXT"); [|congruence].
    cbn [negb]. now rewrite Hsel.
  - destruct (String.eqb_spec (Legacy.Type_ r) "TXT"); [|congruence].
    cbn [negb]. rewrite Hsel. unfold bind. now rewrite Hupd.
Qed.

Lemma Legacy_app (pre rest : list Legacy.Record_) (w w1 : list http.Request) :
  Legacy.all_applied E p zone pre w w1 ->
  Legacy.AppendRecords E p zone (pre ++ rest) w
  = match Legacy.AppendRecords E p zone rest w1 with
    | (Returns (l, e), w') => (Returns ((map Legacy.normalize pre ++ l)%list, e), w')
    | (Panics msg, w') => (Panics msg, w')
    end.
Proof.
  induction 1 as [w|r recs w w1 w2 Hr _ IH].
  - cbn [app map].
    now destruct (Legacy.AppendRecords E p zone rest w) as [[[l e]|msg] w'].
  - cbn [app map]. rewrite (Legacy_cons_applied r _ w w1 Hr), IH.
    now destruct (Legacy.AppendRecords E p zone rest w2) as [[[l e]|msg] w'].
Qed.

(** A record that is not TXT is turned down before [selectAccount] is
    called: the error is the same where that call would panic. *)
Lemma Legacy_non_TXT_first (r : Legacy.Record_) (recs : list Legacy.Record_)
    (w : list http.Request) :
  Legacy.Type_ r <> "TXT" ->
  Legacy.AppendRecords E p zone (r :: recs) w = (Returns ([], Some Spec.unsupported), w).
Proof. intros H. apply Legacy_cons_fails. left. auto. Qed.

End LegacyOrchestration.

(** For the name [@] under [example.com] the older selector panics, yet
    an address record of that name is answered with the error. *)
Example Legacy_non_TXT_short_name :
  Legacy.selectAccount Sample.prov0 "example.com" (Legacy.Name Sample.lA)
  = Panics index_out_of_range
  /\ Legacy.AppendRecords (GoEnv.always 200) Sample.prov0 "example.com"
       [Sample.lA; Sample.l1] []
     = (Returns ([], Some Spec.unsupported), []).
Proof.
  split.
  - vm_compute. reflexivity.
  - apply Legacy_non_TXT_first. discriminate.
Qed.

Section Claims.

Variable E : Env.

Lemma Legacy_updateTxtValue_sends (acc : account) (value body : string)
    (w : list http.Request) :
  json_Marshal E {[ "subdomain" := Subdomain acc; "txt" := value ]} = Ok body ->
  url_Parse E (ServerURL acc ++ "/update") = None ->
  Legacy.updateTxtValue E acc value w
  = (Returns (Spec.update_verdict (client_Do E w (Spec.update_request_bare acc body))),
     (w ++ [Spec.update_request_bare acc body])%list).
Proof.
  intros Hjson Hurl. unfold Legacy.updateTxtValue, http_NewRequest.
  rewrite Hjson, Hurl. unfold bind, http_Do, http.Header_Set. simpl.
  change {| http.Method := "POST"; http.URL := ServerURL acc ++ "/update";
            http.Header :=
              <[ "X-Api-Key" := [Password acc] ]>
                (<[ "X-Api-User" := [Username acc] ]> ∅);
            http.Body := body |}
    with (Spec.update_request_bare acc body).
  destruct (client_Do E w (Spec.update_request_bare acc body)) as [resp|err]; simpl;
    [|reflexivity].
  destruct (Z.eqb_spec (http.StatusCode resp) 200); reflexivity.
Qed.

(** C8, as amended.  Whenever the payload encodes and the URL made of
    the server base URL and [/update] parses, [updateTxtValue] hands
    exactly one request to the client: a POST to that URL whose body is
    the encoded object of [subdomain] and [txt] and whose headers are
    [X-Api-User], [X-Api-Key] and [Content-Type: application/json].  It
    succeeds exactly when the answer has status 200, reports the status
    code of any other answer, and wraps a transport error.  The older
    variant sends the same request without the [Content-Type]. *)
Theorem updateTxtValue_request (acc : account) (value body : string)
    (w : list http.Request) :
  json_Marshal E {[ "subdomain" := Subdomain acc; "txt" := value ]} = Ok body ->
  url_Parse E (ServerURL acc ++ "/update") = None ->
  let req := Spec.update_request acc body in
  let run := updateTxtValue E acc value w in
  snd run = (w ++ [req])%list
  /\ http.Method req = "POST"
  /\ http.URL req = ServerURL acc ++ "/update"
  /\ http.Body req = body
  /\ http.Header req !! "X-Api-User" = Some [Username acc]
  /\ http.Header req !! "X-Api-Key" = Some [Password acc]
  /\ http.Header req !! "Content-Type" = Some ["application/json"]
  /\ (fst run = Returns None <->
      exists resp, client_Do E w req = Ok resp /\ http.StatusCode resp = 200)
  /\ (forall resp,
        client_Do E w req = Ok resp -> http.StatusCode resp <> 200 ->
        fst run = Returns (Some (errorString
                    ("Updating ACME-DNS record resulted in response code "
                     ++ itoa (http.StatusCode resp)))))
  /\ (forall err,
        client_Do E w req = Err err ->
        fst run = Returns (Some (Errorf_w "Error while reading response: " err)))
  /\ Legacy.updateTxtValue E acc value w
     = (Returns (Spec.update_verdict (client_Do E w (Spec.update_request_bare acc body))),
        (w ++ [Spec.update_request_bare acc body])%list).
Proof.
  intros Hjson Hurl req run.
  assert (Hrun : run = (Returns (Spec.update_verdict (client_Do E w req)),
                        (w ++ [req])%list))
    by (apply updateTxtValue_sends; assumption).
  rewrite Hrun. cbn [fst snd].
  repeat match goal with |- _ /\ _ => split end; try reflexivity.
  - split.
    + intros H. destruct (client_Do E w req) as [resp|err]; cbn in H; [|discriminate].
      exists resp. split; [reflexivity|].
      destruct (Z.eqb_spec (http.StatusCode resp) 200); [assumption|discriminate].
    + intros (resp & -> & H200). cbn. now rewrite H200.
  - intros resp -> Hne. cbn.
    destruct (Z.eqb_spec (http.StatusCode resp) 200); [contradiction|reflexivity].
  - intros err ->. reflexivity.
  - apply Legacy_updateTxtValue_sends; assumption.
Qed.

End Claims.

Lemma updateTxtValue_request_witness :
  updateTxtValue (GoEnv.always 200) Sample.acc0 "abc123" []
  = (Returns None,
     [ {| http.Method := "POST";
          http.URL := "https://auth.example/update";
          http.Header := {[ "X-Api-User" := ["u"]; "X-Api-Key" := ["p"];
                            "Content-Type" := ["application/json"] ]};
          http.Body := Sample.body0 |} ])
  /\ fst (updateTxtValue (GoEnv.always 500) Sample.acc0 "abc123" [])
     = Returns (Some (errorString "Updating ACME-DNS record resulted in response code 500"))
  /\ fst (updateTxtValue GoEnv.unreachable Sample.acc0 "abc123" [])
     = Returns (Some (wrapError "Error while reading response: dial tcp: connection refused"
                        (foreign "dial tcp: connection refused"))).
Proof.
  split; [|split].
  - destruct (updateTxtValue_request (GoEnv.always 200) Sample.acc0 "abc123"
                Sample.body0 []) as (Hlog & _ & _ & _ & _ & _ & _ & Hok & _).
    + vm_compute. reflexivity.
    + vm_compute. reflexivity.
    + destruct Hok as [_ Hok].
      rewrite (surjective_pairing (updateTxtValue _ _ _ _)), Hlog, Hok.
      * reflexivity.
      * eexists. split; reflexivity.
  - destruct (updateTxtValue_request (GoEnv.always 500) Sample.acc0 "abc123"
                Sample.body0 []) as (_ & _ & _ & _ & _ & _ & _ & _ & Hstatus & _).
    + vm_compute. reflexivity.
    + vm_compute. reflexivity.
    + apply (Hstatus {| http.StatusCode := 500 |}); [reflexivity | discriminate].
  - destruct (updateTxtValue_request GoEnv.unreachable Sample.acc0 "abc123"
                Sample.body0 []) as (_ & _ & _ & _ & _ & _ & _ & _ & _ & Hdown & _).
    + vm_compute. reflexivity.
    + vm_compute. reflexivity.
    + apply (Hdown (foreign "dial tcp: connection refused")). reflexivity.
Defined.

(** C8 as stated fails: for a server URL that does not parse no request
    goes out at all, and the older variant never sets a [Content-Type]. *)
Lemma updateTxtValue_request_counterexample :
  updateTxtValue (GoEnv.always 200) Sample.acc_bad "abc123" []
  = (Panics nil_dereference, [])
  /\ ~ (forall E acc value w,
          exists req, snd (updateTxtValue E acc value w) = (w ++ [req])%list)
  /\ (exists req,
        snd (Legacy.updateTxtValue (GoEnv.always 200) Sample.acc0 "abc123" []) = [req]
        /\ http.Header req !! "Content-Type" = None).
Proof.
  assert (H1 : updateTxtValue (GoEnv.always 200) Sample.acc_bad "abc123" []
               = (Panics nil_dereference, [])) by (vm_compute; reflexivity).
  split; [exact H1|]. split.
  - intros H. destruct (H (GoEnv.always 200) Sample.acc_bad "abc123" []) as [req Hreq].
    rewrite H1 in Hreq. discriminate.
  - eexists. split; [vm_compute; reflexivity|]. vm_compute. reflexivity.
Qed.

Section Batches.

Variable E : Env.
Variable p : Provider.
Variable zone : string.

Lemma all_applied_TXT (recs : list Record_) (w w' : list http.Request) :
  Spec.all_applied E p zone recs w w' ->
  Forall (fun r => libdns.Type_ (RR r) = "TXT") recs.
Proof. induction 1 as [|r recs w w1 w2 [Htxt _] _ IH]; constructor; assumption. Qed.

(** C3.  The records are taken in order.  If the records before [r] are
    all applied and [r] fails with [e] (its type is not TXT, no account
    is selected for it, or its update fails), the call returns the
    normalized records before [r] together with [e]; what follows [r]
    changes neither the result nor the requests sent.  Conversely a call
    that returns an error stopped in this way at some record, and a call
    that returns none applied every record.  The loop of the older
    variant stops in the same way. *)
Theorem AppendRecords_stops_at_first_failure
    (recs : list Record_) (w : list http.Request) :
  (forall pre r post w1 e w2,
      recs = (pre ++ r :: post)%list ->
      Spec.all_applied E p zone pre w w1 ->
      Spec.fails E p zone r w1 e w2 ->
      AppendRecords E p zone recs w = (Returns (map Spec.normalize pre, Some e), w2)
      /\ AppendRecords E p zone (pre ++ [r]) w = AppendRecords E p zone recs w)
  /\ (forall l e w',
        AppendRecords E p zone recs w = (Returns (l, Some e), w') ->
        exists pre r post w1,
          recs = (pre ++ r :: post)%list
          /\ Spec.all_applied E p zone pre w w1
          /\ Spec.fails E p zone r w1 e w'
          /\ l = map Spec.normalize pre)
  /\ (forall l w',
        AppendRecords E p zone recs w = (Returns (l, None), w') ->
        l = map Spec.normalize recs /\ Spec.all_applied E p zone recs w w')
  /\ (forall pre r post w1 e w2,
        Legacy.all_applied E p zone pre w w1 ->
        Legacy.fails E p zone r w1 e w2 ->
        Legacy.AppendRecords E p zone (pre ++ r :: post) w
        = (Returns (map Legacy.normalize pre, Some e), w2)).
Proof.
  split; [|split; [|split]].
  - intros pre r post w1 e w2 -> Hpre Hr.
    rewrite !(AppendRecords_app E p zone pre _ w w1 Hpre).
    rewrite !(AppendRecords_cons_fails E p zone r _ w1 w2 e Hr).
    now rewrite app_nil_r.
  - intros l e w'. apply AppendRecords_failure.
  - intros l w'. apply AppendRecords_success.
  - intros pre r post w1 e w2 Hpre Hr.
    rewrite (Legacy_app E p zone pre _ w w1 Hpre).
    rewrite (Legacy_cons_fails E p zone r _ w1 w2 e Hr).
    now rewrite app_nil_r.
Qed.

(** C7.  A record whose type is not TXT, reached after the records
    before it were applied, ends the call with the unsupported-type
    error and leaves the log of requests as it was; on such a record the
    outcome is the same for every provider configuration, so no account
    is resolved for it.  A batch that holds such a record never returns
    without an error. *)
Theorem AppendRecords_rejects_non_TXT
    (pre : list Record_) (r : Record_) (post : list Record_)
    (w w1 : list http.Request) :
  libdns.Type_ (RR r) <> "TXT" ->
  (Spec.all_applied E p zone pre w w1 ->
   AppendRecords E p zone (pre ++ r :: post) w
   = (Returns (map Spec.normalize pre, Some Spec.unsupported), w1))
  /\ (forall p' zone' w',
        AppendRecords E p' zone' (r :: post) w'
        = (Returns ([], Some Spec.unsupported), w'))
  /\ (forall recs w0 l w',
        In r recs ->
        AppendRecords E p zone recs w0 <> (Returns (l, None), w')).
Proof.
  intros Htype.
  assert (Hone : forall p' zone' w',
             AppendRecords E p' zone' (r :: post) w'
             = (Returns ([], Some Spec.unsupported), w')).
  { intros p' zone' w'. apply AppendRecords_cons_fails. left. auto. }
  split; [|split].
  - intros Hpre. rewrite (AppendRecords_app E p zone pre _ w w1 Hpre), Hone.
    now rewrite app_nil_r.
  - exact Hone.
  - intros recs w0 l w' Hin Hrun.
    apply AppendRecords_success in Hrun as [_ Hall].
    apply all_applied_TXT in Hall.
    rewrite List.Forall_forall in Hall. apply Htype, Hall, Hin.
Qed.

(** C4.  [SetRecords] is [AppendRecords]: same records, same error,
    same requests. *)
Theorem SetRecords_is_AppendRecords (recs : list Record_) (w : list http.Request) :
  SetRecords E p zone recs w = AppendRecords E p zone recs w.
Proof. reflexivity. Qed.

(** C9.  [DeleteRecords] returns no records and no error and sends
    nothing, whatever it is given; so does the older variant. *)
Theorem DeleteRecords_noop (recs : list Record_) (legacy_recs : list Legacy.Record_)
    (w : list http.Request) :
  DeleteRecords p zone recs w = (Returns ([], None), w)
  /\ Legacy.DeleteRecords p zone legacy_recs w = (Returns ([], None), w).
Proof. split; reflexivity. Qed.

(** C10.  [GetRecords] returns no records and the error saying that
    getting records is not supported, and sends nothing. *)
Theorem GetRecords_unsupported (w : list http.Request) :
  GetRecords p zone w
  = (Returns ([], Some (errorString "acmedns provider does not support getting records")),
     w).
Proof. reflexivity. Qed.

End Batches.

Lemma AppendRecords_stops_at_first_failure_witness :
  AppendRecords (GoEnv.failing_at 1 500) Sample.flat0 "example.com"
    [Sample.r1; Sample.r2; Sample.r3] []
  = (Returns ([Spec.normalize Sample.r1],
              Some (errorString "Updating ACME-DNS record resulted in response code 500")),
     [Spec.update_request Sample.acc0 (Sample.body_of "one");
      Spec.update_request Sample.acc0 (Sample.body_of "two")])
  /\ AppendRecords (GoEnv.failing_at 1 500) Sample.flat0 "example.com"
       [Sample.r1; Sample.r2] []
     = AppendRecords (GoEnv.failing_at 1 500) Sample.flat0 "example.com"
         [Sample.r1; Sample.r2; Sample.r3] []
  /\ (exists pre r post w1,
        [Sample.r1; Sample.r2; Sample.r3] = (pre ++ r :: post)%list
        /\ Spec.all_applied (GoEnv.failing_at 1 500) Sample.flat0 "example.com" pre [] w1
        /\ Spec.fails (GoEnv.failing_at 1 500) Sample.flat0 "example.com" r w1
             (errorString "Updating ACME-DNS record resulted in response code 500")
             [Spec.update_request Sample.acc0 (Sample.body_of "one");
              Spec.update_request Sample.acc0 (Sample.body_of "two")]
        /\ [Spec.normalize Sample.r1] = map Spec.normalize pre)
  /\ Spec.all_applied (GoEnv.always 200) Sample.flat0 "example.com"
       [Sample.r1; Sample.r2] []
       [Spec.update_request Sample.acc0 (Sample.body_of "one");
        Spec.update_request Sample.acc0 (Sample.body_of "two")]
  /\ Legacy.AppendRecords (GoEnv.failing_at 1 500) Sample.flat0 "example.com"
       [Sample.l1; Sample.l2; Sample.l3] []
     = (Returns ([Legacy.normalize Sample.l1],
                 Some (errorString "Updating ACME-DNS record resulted in response code 500")),
        [Spec.update_request_bare Sample.acc0 (Sample.body_of "one");
         Spec.update_request_bare Sample.acc0 (Sample.body_of "two")]).
Proof.
  destruct (AppendRecords_stops_at_first_failure (GoEnv.failing_at 1 500) Sample.flat0
              "example.com" [Sample.r1; Sample.r2; Sample.r3] [])
    as (Hstop & Hconv & _ & Hlegacy).
  destruct (Hstop [Sample.r1] Sample.r2 [Sample.r3]
              [Spec.update_request Sample.acc0 (Sample.body_of "one")]
              (errorString "Updating ACME-DNS record resulted in response code 500")
              [Spec.update_request Sample.acc0 (Sample.body_of "one");
               Spec.update_request Sample.acc0 (Sample.body_of "two")])
    as [Hrun Hsame].
  - reflexivity.
  - econstructor; [|constructor].
    split; [reflexivity|]. exists Sample.acc0. split; vm_compute; reflexivity.
  - right; right. split; [reflexivity|].
    exists Sample.acc0. split; vm_compute; reflexivity.
  - split; [exact Hrun|]. split; [exact Hsame|]. split; [|split].
    + exact (Hconv _ _ _ Hrun).
    + destruct (AppendRecords_stops_at_first_failure (GoEnv.always 200) Sample.flat0
                  "example.com" [Sample.r1; Sample.r2] []) as (_ & _ & Hall & _).
      apply (Hall (map Spec.normalize [Sample.r1; Sample.r2])).
      vm_compute. reflexivity.
    + apply (Hlegacy [Sample.l1] Sample.l2 [Sample.l3]
               [Spec.update_request_bare Sample.acc0 (Sample.body_of "one")]).
      * econstructor; [|constructor].
        split; [reflexivity|]. exists Sample.acc0. split; vm_compute; reflexivity.
      * right; right. split; [reflexivity|].
        exists Sample.acc0. split; vm_compute; reflexivity.
Defined.

Lemma AppendRecords_rejects_non_TXT_witness :
  AppendRecords (GoEnv.always 200) Sample.flat0 "example.com"
    [Sample.r1; Sample.rA; Sample.r3] []
  = (Returns ([Spec.normalize Sample.r1], Some Spec.unsupported),
     [Spec.update_request Sample.acc0 (Sample.body_of "one")])
  /\ AppendRecords (GoEnv.always 200) (mkProvider None "" "" "" "") "example.com"
       [Sample.rA; Sample.r3] []
     = (Returns ([], Some Spec.unsupported), [])
  /\ AppendRecords (GoEnv.always 200) Sample.flat0 "example.com"
       [Sample.r1; Sample.r3; Sample.rA] []
     <> (Returns (map Spec.normalize [Sample.r1; Sample.r3; Sample.rA], None), []).
Proof.
  destruct (AppendRecords_rejects_non_TXT (GoEnv.always 200) Sample.flat0 "example.com"
              [Sample.r1] Sample.rA [Sample.r3] []
              [Spec.update_request Sample.acc0 (Sample.body_of "one")])
    as (Hreject & Hany & Hnever).
  - discriminate.
  - split; [|split].
    + apply Hreject. econstructor; [|constructor].
      split; [reflexivity|]. exists Sample.acc0. split; vm_compute; reflexivity.
    + apply Hany.
    + apply Hnever. simpl. auto.
Defined.

(** C2 fails on the code.  [updateTxtValue] never looks at the error of
    [http.NewRequest]: for a server URL that does not parse the request
    is nil and setting a header on it panics, in both variants.  The
    older variant of [selectAccount] also panics, on a domain shorter
    than the prefix; the resource-record variant does not. *)
Theorem updateTxtValue_panics_on_bad_url :
  updateTxtValue (GoEnv.always 200) Sample.acc_bad "abc123" []
  = (Panics nil_dereference, [])
  /\ Legacy.updateTxtValue (GoEnv.always 200) Sample.acc_bad "abc123" []
     = (Panics nil_dereference, [])
  /\ AppendRecords (GoEnv.always 200) (mkProvider None "u" "p" "sd" ":") "example.com"
       [Sample.r1] []
     = (Panics nil_dereference, [])
  /\ Legacy.selectAccount Sample.prov0 "example.com" "@" = Panics index_out_of_range
  /\ selectAccount Sample.prov0 "example.com" "@" = Ok Sample.acc0.
Proof.
  destruct (updateTxtValue_nil_request (GoEnv.always 200) Sample.acc_bad "abc123"
              (Sample.body_of "abc123") (foreign "missing protocol scheme") [])
    as [H1 H2]; [vm_compute; reflexivity | vm_compute; reflexivity |].
  split; [exact H1|]. split; [exact H2|]. split; [|split].
  - vm_compute. reflexivity.
  - apply (Legacy_selectAccount_short Sample.prov0 Sample.table0); [reflexivity|].
    vm_compute. reflexivity.
  - vm_compute. reflexivity.
Qed.

(** * Further properties *)

(** ** More on strings *)

Lemma append_cons (x : ascii) (a b : string) : String x a ++ b = String x (a ++ b).
Proof. reflexivity. Qed.

Lemma append_assoc_s (a b c : string) : (a ++ b) ++ c = a ++ (b ++ c).
Proof.
  induction a as [|x a IH]; [reflexivity|].
  rewrite !append_cons. now rewrite IH.
Qed.

Lemma length_append_s (a b : string) :
  String.length (a ++ b) = (String.length a + String.length b)%nat.
Proof.
  induction a as [|x a IH]; [reflexivity|].
  rewrite append_cons. cbn [String.length Nat.add]. now rewrite IH.
Qed.

Lemma HasSuffix_app (x s suffix : string) :
  (String.length suffix <= String.length s)%nat ->
  strings.HasSuffix (x ++ s) suffix = strings.HasSuffix s suffix.
Proof.
  intros Hle. induction x as [|a x IH]; [reflexivity|].
  rewrite append_cons, HasSuffix_cons; [exact IH|].
  rewrite length_append_s. lia.
Qed.

Lemma trimRightByte_id (s : string) :
  strings.HasSuffix s "." = false -> strings.trimRightByte s "." = s.
Proof.
  induction s as [|a s IH]; [reflexivity|].
  destruct s as [|b t].
  - rewrite HasSuffix_dot_single. intros H. cbn [strings.trimRightByte]. now rewrite H.
  - rewrite HasSuffix_cons by (simpl; lia). intros H.
    change (strings.trimRightByte (String a (String b t)) ".")
      with (match strings.trimRightByte (String b t) "." with
            | EmptyString => if Ascii.eqb a "." then EmptyString else String a EmptyString
            | u => String a u
            end).
    now rewrite (IH H).
Qed.

(** A dot put at the end is taken off again. *)
Lemma trimRightByte_snoc (s : string) :
  strings.trimRightByte (s ++ ".") "." = strings.trimRightByte s ".".
Proof.
  induction s as [|a s IH]; [reflexivity|].
  rewrite append_cons. cbn [strings.trimRightByte]. now rewrite IH.
Qed.

Lemma trimLeftByte_id (s : string) :
  strings.HasPrefix s "." = false -> strings.trimLeftByte s "." = s.
Proof.
  rewrite HasPrefix_dot. destruct s as [|a s]; [reflexivity|].
  intros H. cbn [strings.trimLeftByte]. now rewrite H.
Qed.

Lemma drop_app (x s : string) : strings.drop (String.length x) (x ++ s) = s.
Proof. induction x as [|a x IH]; [reflexivity|exact IH]. Qed.

Lemma prefix_app (x s : string) : String.prefix x (x ++ s) = true.
Proof.
  induction x as [|a x IH]; [now destruct s|].
  rewrite append_cons. cbn [String.prefix].
  destruct (ascii_dec a a); [exact IH|congruence].
Qed.

Lemma TrimPrefix_app (x s : string) : strings.TrimPrefix (x ++ s) x = s.
Proof.
  unfold strings.TrimPrefix, strings.HasPrefix. rewrite prefix_app. apply drop_app.
Qed.

Lemma length_trim_trailing_dot (s : string) :
  (String.length s - 1 <= String.length (Spec.trim_trailing_dot s) <= String.length s)%nat.
Proof.
  induction s as [|a s IH]; [simpl; lia|].
  destruct s as [|b s].
  - cbn [Spec.trim_trailing_dot]. destruct (Ascii.eqb a "."); simpl; lia.
  - change (Spec.trim_trailing_dot (String a (String b s)))
      with (String a (Spec.trim_trailing_dot (String b s))).
    cbn [String.length] in *. lia.
Qed.

(** ** More on the account selector *)

(** For a plain relative name under a zone without a trailing dot the
    absolute name is left as it is by the trimming. *)
Lemma Trim_AbsoluteName_plain (zone name : string) :
  name <> "" -> name <> "@" ->
  strings.HasPrefix name "." = false ->
  strings.HasSuffix name "." = false ->
  zone <> "" ->
  strings.HasSuffix zone "." = false ->
  strings.Trim (libdns.AbsoluteName name zone) "." = name ++ "." ++ zone.
Proof.
  intros Hn Hat Hpre Hsuf Hz Hzs.
  unfold libdns.AbsoluteName.
  destruct (String.eqb_spec zone ""); [congruence|].
  destruct (String.eqb_spec name ""); [congruence|].
  destruct (String.eqb_spec name "@"); [congruence|].
  cbn [orb]. rewrite Hsuf. unfold strings.Trim.
  assert (Hlen : (1 <= String.length zone)%nat)
    by (destruct zone; [congruence|simpl; lia]).
  rewrite trimRightByte_id.
  - apply trimLeftByte_id. destruct name as [|a name]; [congruence|].
    rewrite HasPrefix_dot in *. exact Hpre.
  - rewrite HasSuffix_app by (rewrite length_append_s; simpl; lia).
    change ("." ++ zone) with (String "." zone).
    rewrite HasSuffix_cons by (simpl; lia). exact Hzs.
Qed.

(** A dot at the end of a non-empty zone does not change the key. *)
Lemma Trim_AbsoluteName_zone_dot (zone name : string) :
  zone <> "" ->
  strings.Trim (libdns.AbsoluteName name (zone ++ ".")) "."
  = strings.Trim (libdns.AbsoluteName name zone) ".".
Proof.
  intros Hz. unfold libdns.AbsoluteName.
  destruct (String.eqb_spec (zone ++ ".") "") as [He|_].
  { destruct zone; discriminate. }
  destruct (String.eqb_spec zone ""); [congruence|].
  unfold strings.Trim.
  destruct (String.eqb name "" || String.eqb name "@").
  - now rewrite trimRightByte_snoc.
  - destruct (strings.HasSuffix name ".").
    + now rewrite <- append_assoc_s, trimRightByte_snoc.
    + now rewrite <- !append_assoc_s, trimRightByte_snoc.
Qed.

(** X1.  The table entry of a domain answers the challenge names under
    it: with the zone given with or without its final dot, the name
    [_acme-challenge] selects the entry of the zone, and the name
    [_acme-challenge.sub] the entry of [sub.zone].  The static fields
    and the entry's full domain play no part. *)
Theorem selectAccount_challenge_name
    (m : gmap string DomainConfig) (cfg : DomainConfig)
    (user pass sd url d sub : string) :
  d <> "" -> strings.HasSuffix d "." = false ->
  let p := mkProvider (Some m) user pass sd url in
  (m !! d = Some cfg ->
   selectAccount p d "_acme-challenge" = Ok (account_of_config cfg)
   /\ selectAccount p (d ++ ".") "_acme-challenge" = Ok (account_of_config cfg))
  /\ (sub <> "" -> strings.HasSuffix sub "." = false ->
      m !! (sub ++ "." ++ d) = Some cfg ->
      selectAccount p d (acmePrefix ++ sub) = Ok (account_of_config cfg)
      /\ selectAccount p (d ++ ".") (acmePrefix ++ sub) = Ok (account_of_config cfg)).
Proof.
  intros Hd Hds p.
  assert (Hkey1 : strings.TrimPrefix
                    (strings.Trim (libdns.AbsoluteName "_acme-challenge" d) ".") acmePrefix
                  = d).
  { rewrite Trim_AbsoluteName_plain by (try discriminate; try reflexivity; assumption).
    apply (TrimPrefix_app acmePrefix d). }
  assert (Hkey2 : sub <> "" -> strings.HasSuffix sub "." = false ->
                  strings.TrimPrefix
                    (strings.Trim (libdns.AbsoluteName (acmePrefix ++ sub) d) ".") acmePrefix
                  = sub ++ "." ++ d).
  { intros Hs Hss.
    assert (Hlen : (1 <= String.length sub)%nat)
      by (destruct sub; [congruence|simpl; lia]).
    rewrite Trim_AbsoluteName_plain; try assumption; try discriminate.
    - rewrite append_assoc_s. apply TrimPrefix_app.
    - reflexivity.
    - rewrite HasSuffix_app by (simpl; lia). exact Hss. }
  split.
  - intros Hm. split.
    + rewrite (selectAccount_table p m) by reflexivity.
      rewrite Hkey1. unfold Spec.lookup. now rewrite Hm.
    + rewrite (selectAccount_table p m) by reflexivity.
      rewrite Trim_AbsoluteName_zone_dot by exact Hd.
      rewrite Hkey1. unfold Spec.lookup. now rewrite Hm.
  - intros Hs Hss Hm. split.
    + rewrite (selectAccount_table p m) by reflexivity.
      rewrite (Hkey2 Hs Hss). unfold Spec.lookup. now rewrite Hm.
    + rewrite (selectAccount_table p m) by reflexivity.
      rewrite Trim_AbsoluteName_zone_dot by exact Hd.
      rewrite (Hkey2 Hs Hss). unfold Spec.lookup. now rewrite Hm.
Qed.

Lemma selectAccount_challenge_name_witness :
  selectAccount Sample.prov1 "example.com." "_acme-challenge" = Ok Sample.acc0
  /\ selectAccount Sample.prov1 "example.com." "_acme-challenge.www" = Ok Sample.acc1.
Proof.
  destruct (selectAccount_challenge_name Sample.table1 Sample.cfg0
              "static-user" "static-pass" "static-sd" "https://static.example"
              "example.com" "www") as [H1 _]; [discriminate|reflexivity|].
  destruct (selectAccount_challenge_name Sample.table1 Sample.cfg1
              "static-user" "static-pass" "static-sd" "https://static.example"
              "example.com" "www") as [_ H2]; [discriminate|reflexivity|].
  split.
  - apply H1. vm_compute. reflexivity.
  - apply H2; [discriminate | reflexivity | vm_compute; reflexivity].
Defined.

(** X2.  With a table a final dot on a non-empty zone makes no
    difference to the selected account or to the reported error;
    without a table neither zone nor name is looked at. *)
Theorem selectAccount_zone_trailing_dot (p : Provider) (zone name : string) :
  (zone <> "" -> selectAccount p (zone ++ ".") name = selectAccount p zone name)
  /\ (Configs p = None ->
      forall zone' name', selectAccount p zone' name' = selectAccount p zone name).
Proof.
  split.
  - intros Hz. unfold selectAccount. destruct (Configs p) as [m|]; [|reflexivity].
    cbv zeta. now rewrite Trim_AbsoluteName_zone_dot.
  - intros Hnil zone' name'. unfold selectAccount. now rewrite Hnil.
Qed.

Lemma selectAccount_zone_trailing_dot_witness :
  selectAccount Sample.prov1 "example.org." "www"
  = Err (errorString "Config for domain www.example.org not found")
  /\ selectAccount Sample.flat0 "example.net" "@" = Ok Sample.acc0.
Proof.
  destruct (selectAccount_zone_trailing_dot Sample.prov1 "example.org" "www") as [H1 _].
  destruct (selectAccount_zone_trailing_dot Sample.flat0 "example.com" "www") as [_ H2].
  split.
  - change (selectAccount Sample.prov1 "example.org." "www")
      with (selectAccount Sample.prov1 ("example.org" ++ ".") "www").
    rewrite H1; [vm_compute; reflexivity | discriminate].
  - rewrite (H2 eq_refl "example.net" "@"). vm_compute. reflexivity.
Defined.

(** X3.  The two variants select alike on ordinary input: for a plain
    relative name and a non-empty zone, the joined name not ending in
    two dots and, once its final dot is off, at least as long as the
    prefix, the older variant returns what the newer one returns. *)
Theorem Legacy_selectAccount_agrees (p : Provider) (zone name : string) :
  name <> "" -> name <> "@" ->
  strings.HasPrefix name "." = false ->
  strings.HasSuffix name "." = false ->
  zone <> "" ->
  strings.HasSuffix (name ++ "." ++ zone) ".." = false ->
  strings.len acmePrefix <= strings.len (Spec.trim_trailing_dot (name ++ "." ++ zone)) ->
  Legacy.selectAccount p zone name = Returns (selectAccount p zone name).
Proof.
  intros Hn Hat Hpre Hsuf Hz Hdd Hlen.
  destruct (Configs p) as [m|] eqn:Hm.
  - rewrite (Legacy_selectAccount_table p m) by assumption.
    rewrite (selectAccount_table p m) by assumption.
    now rewrite Trim_AbsoluteName_ordinary by assumption.
  - now apply Legacy_flat_agrees.
Qed.

Lemma Legacy_selectAccount_agrees_witness :
  Legacy.selectAccount Sample.prov1 "example.com." "_acme-challenge.www"
  = Returns (Ok Sample.acc1).
Proof.
  rewrite (Legacy_selectAccount_agrees Sample.prov1 "example.com." "_acme-challenge.www");
    [vm_compute; reflexivity | discriminate | discriminate | reflexivity | reflexivity
    | discriminate | reflexivity | vm_compute; discriminate].
Defined.

(** X4.  With a table the older variant panics exactly when the joined
    name, its final dot off, is shorter than the prefix: always when
    name and zone together have fewer than 15 bytes, never when they
    have 16 or more. *)
Theorem Legacy_selectAccount_bounds
    (p : Provider) (m : gmap string DomainConfig) (zone name : string) :
  Configs p = Some m ->
  (Legacy.selectAccount p zone name = Panics index_out_of_range
   <-> strings.len (Spec.trim_trailing_dot (name ++ "." ++ zone)) < strings.len acmePrefix)
  /\ ((String.length name + String.length zone < 15)%nat ->
      Legacy.selectAccount p zone name = Panics index_out_of_range)
  /\ ((16 <= String.length name + String.length zone)%nat ->
      Legacy.selectAccount p zone name
      = Returns (Spec.lookup m (Spec.lookup_key zone name))).
Proof.
  intros Hm.
  pose proof (length_trim_trailing_dot (name ++ "." ++ zone)) as Hb.
  rewrite !length_append_s in Hb. cbn [String.length] in Hb.
  split; [|split].
  - split.
    + intros Hpanic.
      destruct (Z.lt_ge_cases
                  (strings.len (Spec.trim_trailing_dot (name ++ "." ++ zone)))
                  (strings.len acmePrefix)) as [Hlt|Hge]; [exact Hlt|].
      rewrite (Legacy_selectAccount_table p m) in Hpanic by assumption.
      discriminate.
    + now apply (Legacy_selectAccount_short p m).
  - intros Hshort. apply (Legacy_selectAccount_short p m); [assumption|].
    unfold strings.len. simpl String.length. lia.
  - intros Hlong. apply (Legacy_selectAccount_table p m); [assumption|].
    unfold strings.len. simpl String.length. lia.
Qed.

Lemma Legacy_selectAccount_bounds_witness :
  Legacy.selectAccount Sample.prov1 "a.io" "www" = Panics index_out_of_range
  /\ Legacy.selectAccount Sample.prov1 "" "_acme-challenge" = Panics index_out_of_range
  /\ Legacy.selectAccount Sample.prov1 "example.com" "_acme-challenge"
     = Returns (Ok Sample.acc0).
Proof.
  destruct (Legacy_selectAccount_bounds Sample.prov1 Sample.table1 "a.io" "www" eq_refl)
    as (_ & Hshort & _).
  destruct (Legacy_selectAccount_bounds Sample.prov1 Sample.table1 "" "_acme-challenge"
              eq_refl) as ([_ Hiff] & _ & _).
  destruct (Legacy_selectAccount_bounds Sample.prov1 Sample.table1
              "example.com" "_acme-challenge" eq_refl) as (_ & _ & Hlong).
  split; [|split].
  - apply Hshort. simpl. lia.
  - apply Hiff. vm_compute. reflexivity.
  - rewrite Hlong; [vm_compute; reflexivity | simpl; lia].
Defined.

(** ** More on the updater and the loop *)

Section Log.

Variable E : Env.

(** The three ways a call of [updateTxtValue] can go. *)
Lemma updateTxtValue_cases (acc : account) (value : string) (w : list http.Request) :
  (exists body,
      json_Marshal E {[ "subdomain" := Subdomain acc; "txt" := value ]} = Ok body
      /\ url_Parse E (ServerURL acc ++ "/update") = None
      /\ updateTxtValue E acc value w
         = (Returns (Spec.update_verdict (client_Do E w (Spec.update_request acc body))),
            (w ++ [Spec.update_request acc body])%list))
  \/ (exists body err,
        json_Marshal E {[ "subdomain" := Subdomain acc; "txt" := value ]} = Ok body
        /\ url_Parse E (ServerURL acc ++ "/update") = Some err
        /\ updateTxtValue E acc value w = (Panics nil_dereference, w))
  \/ (exists err,
        json_Marshal E {[ "subdomain" := Subdomain acc; "txt" := value ]} = Err err
        /\ updateTxtValue E acc value w
           = (Returns (Some (Errorf_w "Error while marshalling JSON: " err)), w)).
Proof.
  destruct (json_Marshal E {[ "subdomain" := Subdomain acc; "txt" := value ]})
    as [body|err] eqn:Hjson.
  - destruct (url_Parse E (ServerURL acc ++ "/update")) as [err|] eqn:Hurl.
    + right; left. exists body, err. repeat split.
      now apply (updateTxtValue_nil_request E acc value body err w).
    + left. exists body. repeat split. now apply updateTxtValue_sends.
  - right; right. exists err. split; [reflexivity|].
    unfold updateTxtValue. now rewrite Hjson.
Qed.

Variable p : Provider.
Variable zone : string.

Ltac turn r w :=
  cbn [AppendRecords_loop];
  destruct (String.eqb_spec (libdns.Type_ (RR r)) "TXT") as [Htxt|Htxt];
  cbn [negb];
  [ destruct (selectAccount p zone (libdns.Name (RR r))) as [acc|err] eqn:Hsel;
    [ unfold bind;
      destruct (updateTxtValue_cases acc (libdns.Data (RR r)) w)
        as [(body & Hjson & Hurl & Hupd)
           | [(body & uerr & Hjson & Hurl & Hupd) | (jerr & Hjson & Hupd)]];
      rewrite Hupd; cbv beta iota
    | ]
  | ].

(** Whatever the outcome, the log is extended by one request for each
    of the first records, in their order. *)
Lemma AppendRecords_loop_log (recs done : list Record_) (w : list http.Request) :
  exists reqs,
    snd (AppendRecords_loop E p zone recs done w) = (w ++ reqs)%list
    /\ Forall2 (Spec.sent_for E p zone) (firstn (length reqs) recs) reqs.
Proof.
  revert done w. induction recs as [|r recs IH]; intros done w.
  - exists []. cbn. rewrite app_nil_r. split; [reflexivity|constructor].
  - turn r w.
    + destruct (Spec.update_verdict _) as [e|].
      * exists [Spec.update_request acc body]. split; [reflexivity|].
        cbn. constructor; [|constructor]. split; [exact Htxt|]. eauto.
      * destruct (IH (done ++ [acmeDNSRecord
                       {| libdns.Name := libdns.Name (RR r); libdns.TTL := 0;
                          libdns.Type_ := "TXT"; libdns.Data := libdns.Data (RR r) |}])%list
                    (w ++ [Spec.update_request acc body])%list) as (reqs & Hlog & Hall).
        exists (Spec.update_request acc body :: reqs). split.
        -- rewrite Hlog. now rewrite <- app_assoc.
        -- cbn. constructor; [|exact Hall]. split; [exact Htxt|]. eauto.
    + exists []. cbn. rewrite app_nil_r. split; [reflexivity|constructor].
    + exists []. cbn. rewrite app_nil_r. split; [reflexivity|constructor].
    + exists []. cbn. rewrite app_nil_r. split; [reflexivity|constructor].
    + exists []. cbn. rewrite app_nil_r. split; [reflexivity|constructor].
Qed.


(** An applied record has sent exactly one request. *)
Lemma applied_sends (r : Record_) (w w' : list http.Request) :
  Spec.applied E p zone r w w' -> exists req, w' = (w ++ [req])%list.
Proof.
  intros (_ & acc & _ & Hupd).
  destruct (updateTxtValue_cases acc (libdns.Data (RR r)) w)
    as [(body & _ & _ & H) | [(body & uerr & _ & _ & H) | (jerr & _ & H)]];
    rewrite H in Hupd; inversion Hupd; eauto.
Qed.

(** A failed record has sent one request or none. *)
Lemma fails_sends (r : Record_) (w w' : list http.Request) (e : error) :
  Spec.fails E p zone r w e w' -> w' = w \/ exists req, w' = (w ++ [req])%list.
Proof.
  intros [(_ & _ & ->) | [(_ & _ & ->) | (_ & acc & _ & Hupd)]]; auto.
  destruct (updateTxtValue_cases acc (libdns.Data (RR r)) w)
    as [(body & _ & _ & H) | [(body & uerr & _ & _ & H) | (jerr & _ & H)]];
    rewrite H in Hupd; inversion Hupd; eauto.
Qed.

Lemma all_applied_sends (recs : list Record_) (w w' : list http.Request) :
  Spec.all_applied E p zone recs w w' ->
  exists reqs, w' = (w ++ reqs)%list /\ length reqs = length recs.
Proof.
  induction 1 as [w|r recs w w1 w2 Hr _ (reqs & -> & Hlen)].
  - exists []. now rewrite app_nil_r.
  - destruct (applied_sends r w w1 Hr) as [req ->].
    exists (req :: reqs). rewrite <- app_assoc. split; [reflexivity|].
    cbn [length]. now rewrite Hlen.
Qed.

(** Only type, name and data of a record are read. *)
Lemma AppendRecords_loop_view (recs recs' done : list Record_) (w : list http.Request) :
  map Spec.view recs = map Spec.view recs' ->
  AppendRecords_loop E p zone recs done w = AppendRecords_loop E p zone recs' done w.
Proof.
  revert recs' done w. induction recs as [|r recs IH]; intros [|r' recs'] done w;
    try discriminate; [reflexivity|].
  cbn [map]. intros [= Ht Hn Hd Hrest].
  cbn [AppendRecords_loop]. rewrite Ht, Hn, Hd.
  destruct (negb (String.eqb (libdns.Type_ (RR r')) "TXT")); [reflexivity|].
  destruct (selectAccount p zone (libdns.Name (RR r'))) as [acc|err]; [|reflexivity].
  unfold bind.
  destruct (updateTxtValue E acc (libdns.Data (RR r')) w) as [[[e|]|msg] w1];
    try reflexivity.
  now apply IH.
Qed.

(** Without a table the zone is not read either. *)
Lemma AppendRecords_loop_flat_zone (zone' : string) (recs done : list Record_)
    (w : list http.Request) :
  Configs p = None ->
  AppendRecords_loop E p zone' recs done w = AppendRecords_loop E p zone recs done w.
Proof.
  intros Hnil. revert done w. induction recs as [|r recs IH]; intros done w;
    [reflexivity|].
  cbn [AppendRecords_loop].
  replace (selectAccount p zone' (libdns.Name (RR r)))
    with (selectAccount p zone (libdns.Name (RR r)))
    by (unfold selectAccount; now rewrite Hnil).
  destruct (negb (String.eqb (libdns.Type_ (RR r)) "TXT")); [reflexivity|].
  destruct (selectAccount p zone (libdns.Name (RR r))) as [acc|err]; [|reflexivity].
  unfold bind.
  destruct (updateTxtValue E acc (libdns.Data (RR r)) w) as [[[e|]|msg] w1];
    try reflexivity.
  apply IH.
Qed.

End Log.

Section LegacyLog.

Variable E : Env.
Variable p : Provider.
Variable zone : string.

Lemma Legacy_loop_view (recs recs' done : list Legacy.Record_) (w : list http.Request) :
  map Spec.legacy_view recs = map Spec.legacy_view recs' ->
  Legacy.AppendRecords_loop E p zone recs done w
  = Legacy.AppendRecords_loop E p zone recs' done w.
Proof.
  revert recs' done w. induction recs as [|r recs IH]; intros [|r' recs'] done w;
    try discriminate; [reflexivity|].
  cbn [map]. intros [= Ht Hn Hd Hrest].
  cbn [Legacy.AppendRecords_loop]. rewrite Ht, Hn, Hd.
  destruct (negb (String.eqb (Legacy.Type_ r') "TXT")); [reflexivity|].
  destruct (Legacy.selectAccount p zone (Legacy.Name r')) as [[acc|err]|msg];
    try reflexivity.
  unfold bind.
  destruct (Legacy.updateTxtValue E acc (Legacy.Value r') w) as [[[e|]|msg] w1];
    try reflexivity.
  now apply IH.
Qed.

Lemma Legacy_cons_panics (r : Legacy.Record_) (recs : list Legacy.Record_)
    (w : list http.Request) (msg : string) :
  Legacy.Type_ r = "TXT" ->
  Legacy.selectAccount p zone (Legacy.Name r) = Panics msg ->
  Legacy.AppendRecords E p zone (r :: recs) w = (Panics msg, w).
Proof.
  intros Htxt Hsel. unfold Legacy.AppendRecords. cbn [Legacy.AppendRecords_loop].
  destruct (String.eqb_spec (Legacy.Type_ r) "TXT"); [|congruence].
  cbn [negb]. now rewrite Hsel.
Qed.

End LegacyLog.

Lemma flat_account_is_static (p : Provider) (zone name : string) (acc : account) :
  Configs p = None -> selectAccount p zone name = Ok acc -> acc = Spec.static_account p.
Proof.
  intros Hnil. unfold selectAccount. rewrite Hnil.
  destruct (String.eqb (p_Username p) ""); [discriminate|].
  destruct (String.eqb (p_Password p) ""); [discriminate|].
  destruct (String.eqb (p_Subdomain p) ""); [discriminate|].
  destruct (String.eqb (p_ServerURL p) ""); [discriminate|].
  now intros [= <-].
Qed.

Lemma view_normalize (r : Record_) :
  libdns.Type_ (RR r) = "TXT" -> Spec.view (Spec.normalize r) = Spec.view r.
Proof. intros H. unfold Spec.view, Spec.normalize. cbn. now rewrite H. Qed.

Section MoreBatches.

Variable E : Env.
Variable p : Provider.
Variable zone : string.

(** X5.  Whatever the outcome of [AppendRecords], be it a result, an
    error or a panic, the log of requests is only extended, by one
    request for each of the first records in their order; each of them
    is the update request of the account selected for that record's
    name, carrying the encoding of that account's subdomain and of the
    record's data. *)
Theorem AppendRecords_log (recs : list Record_) (w : list http.Request) :
  exists reqs,
    snd (AppendRecords E p zone recs w) = (w ++ reqs)%list
    /\ (length reqs <= length recs)%nat
    /\ Forall2 (Spec.sent_for E p zone) (firstn (length reqs) recs) reqs.
Proof.
  destruct (AppendRecords_loop_log E p zone recs [] w) as (reqs & Hlog & Hall).
  exists reqs. split; [exact Hlog|]. split; [|exact Hall].
  apply Forall2_length in Hall. rewrite length_firstn in Hall. lia.
Qed.

(** X6.  When [AppendRecords] returns, the returned records are the
    normalized forms of a leading part of the batch.  Without an error
    that part is the whole batch and one request went out per record;
    with an error it is a proper part and the requests sent are as many
    as the returned records, or one more. *)
Theorem AppendRecords_request_count
    (recs l : list Record_) (e : option error) (w w' : list http.Request) :
  AppendRecords E p zone recs w = (Returns (l, e), w') ->
  exists reqs,
    w' = (w ++ reqs)%list
    /\ l = map Spec.normalize (firstn (length l) recs)
    /\ match e with
       | None => length l = length recs /\ length reqs = length recs
       | Some _ =>
           (length l < length recs)%nat
           /\ (length reqs = length l \/ length reqs = S (length l))
       end.
Proof.
  destruct e as [e|]; intros Hrun.
  - apply AppendRecords_failure in Hrun
      as (pre & r & post & w1 & -> & Hpre & Hr & ->).
    destruct (all_applied_sends E p zone pre w w1 Hpre) as (reqs & -> & Hlen).
    rewrite length_map.
    assert (Hfirst : firstn (length pre) (pre ++ r :: post) = pre).
    { rewrite firstn_app, Nat.sub_diag, firstn_all. cbn. apply app_nil_r. }
    destruct (fails_sends E p zone r _ w' e Hr) as [-> | [req ->]].
    + exists reqs. rewrite Hfirst, length_app. cbn [length].
      repeat split; [lia | now left].
    + exists (reqs ++ [req])%list. rewrite Hfirst, !length_app, app_assoc. cbn [length].
      repeat split; [lia | right; lia].
  - apply AppendRecords_success in Hrun as [-> Hall].
    destruct (all_applied_sends E p zone recs w w' Hall) as (reqs & -> & Hlen).
    exists reqs. rewrite length_map, firstn_all. auto.
Qed.


(** X8.  [AppendRecords] reads only the type, the name and the data of
    each record: batches that agree on these give the same result and
    the same requests.  So a batch of TXT records and its normalized
    form, which is what a successful call returns, are treated alike. *)
Theorem AppendRecords_reads_view (recs recs' : list Record_) (w : list http.Request) :
  (map Spec.view recs = map Spec.view recs' ->
   AppendRecords E p zone recs w = AppendRecords E p zone recs' w)
  /\ (Forall (fun r => libdns.Type_ (RR r) = "TXT") recs ->
      AppendRecords E p zone (map Spec.normalize recs) w = AppendRecords E p zone recs w).
Proof.
  split.
  - apply AppendRecords_loop_view.
  - intros Hall. apply AppendRecords_loop_view.
    induction Hall as [|r recs Hr _ IH]; [reflexivity|].
    cbn [map]. now rewrite view_normalize, IH.
Qed.

(** X9.  Without a table one account serves every record: the zone
    makes no difference to the call, and every request sent is an
    update request of the account made of the four static fields. *)
Theorem AppendRecords_flat (recs : list Record_) (w : list http.Request) :
  Configs p = None ->
  (forall zone', AppendRecords E p zone' recs w = AppendRecords E p zone recs w)
  /\ exists reqs,
       snd (AppendRecords E p zone recs w) = (w ++ reqs)%list
       /\ Forall (fun req => exists body,
                    req = Spec.update_request (Spec.static_account p) body) reqs.
Proof.
  intros Hnil. split.
  - intros zone'. now apply AppendRecords_loop_flat_zone.
  - destruct (AppendRecords_loop_log E p zone recs [] w) as (reqs & Hlog & Hall).
    exists reqs. split; [exact Hlog|].
    remember (firstn (length reqs) recs) as rs eqn:Hrs. clear Hrs Hlog.
    induction Hall as [|r req rs reqs' (_ & acc & body & Hsel & _ & ->) _ IH];
      constructor; [|exact IH].
    exists body. now rewrite (flat_account_is_static p zone _ acc Hnil Hsel).
Qed.

(** X10.  The older [AppendRecords] reads only the type, the name and
    the value of each record: identifier, TTL and priority make no
    difference to the result or to the requests. *)
Theorem Legacy_reads_view
    (recs recs' : list Legacy.Record_) (w : list http.Request) :
  map Spec.legacy_view recs = map Spec.legacy_view recs' ->
  Legacy.AppendRecords E p zone recs w = Legacy.AppendRecords E p zone recs' w.
Proof. apply Legacy_loop_view. Qed.

(** X11.  In the older variant a TXT record on which the selector
    panics ends the call with that panic: the requests of the records
    applied before it have gone out, yet no partial list is returned. *)
Theorem Legacy_AppendRecords_panics_midway
    (pre : list Legacy.Record_) (r : Legacy.Record_) (post : list Legacy.Record_)
    (w w1 : list http.Request) (msg : string) :
  Legacy.all_applied E p zone pre w w1 ->
  Legacy.Type_ r = "TXT" ->
  Legacy.selectAccount p zone (Legacy.Name r) = Panics msg ->
  Legacy.AppendRecords E p zone (pre ++ r :: post) w = (Panics msg, w1).
Proof.
  intros Hpre Htxt Hsel.
  rewrite (Legacy_app E p zone pre _ w w1 Hpre).
  now rewrite (Legacy_cons_panics E p zone r post w1 msg Htxt Hsel).
Qed.

End MoreBatches.

Lemma AppendRecords_request_count_witness :
  (exists reqs,
      [Spec.update_request Sample.acc0 (Sample.body_of "one");
       Spec.update_request Sample.acc0 (Sample.body_of "two")] = ([] ++ reqs)%list
      /\ [Spec.normalize Sample.r1]
         = map Spec.normalize
             (firstn (length [Spec.normalize Sample.r1]) [Sample.r1; Sample.r2; Sample.r3])
      /\ (length [Spec.normalize Sample.r1] < length [Sample.r1; Sample.r2; Sample.r3])%nat
      /\ (length reqs = length [Spec.normalize Sample.r1]
          \/ length reqs = S (length [Spec.normalize Sample.r1])))
  /\ (exists reqs,
        [Spec.update_request Sample.acc0 (Sample.body_of "one");
         Spec.update_request Sample.acc0 (Sample.body_of "two")] = ([] ++ reqs)%list
        /\ map Spec.normalize [Sample.r1; Sample.r2]
           = map Spec.normalize
               (firstn (length (map Spec.normalize [Sample.r1; Sample.r2]))
                  [Sample.r1; Sample.r2])
        /\ length (map Spec.normalize [Sample.r1; Sample.r2])
           = length [Sample.r1; Sample.r2]
        /\ length reqs = length [Sample.r1; Sample.r2]).
Proof.
  split.
  - apply (AppendRecords_request_count (GoEnv.failing_at 1 500) Sample.flat0 "example.com"
             [Sample.r1; Sample.r2; Sample.r3] [Spec.normalize Sample.r1]
             (Some (errorString "Updating ACME-DNS record resulted in response code 500"))
             []).
    vm_compute. reflexivity.
  - apply (AppendRecords_request_count (GoEnv.always 200) Sample.flat0 "example.com"
             [Sample.r1; Sample.r2] (map Spec.normalize [Sample.r1; Sample.r2]) None []).
    vm_compute. reflexivity.
Defined.


Lemma AppendRecords_reads_view_witness :
  AppendRecords (GoEnv.always 200) Sample.flat0 "example.com"
    [Sample.r1; Sample.r2] []
  = AppendRecords (GoEnv.always 200) Sample.flat0 "example.com"
      [acmeDNSRecord {| libdns.Name := "_acme-challenge"; libdns.TTL := 0;
                        libdns.Type_ := "TXT"; libdns.Data := "one" |};
       libdnsRecord {| libdns.Name := "_acme-challenge.www"; libdns.TTL := 86400;
                       libdns.Type_ := "TXT"; libdns.Data := "two" |}] []
  /\ AppendRecords (GoEnv.always 200) Sample.flat0 "example.com"
       (map Spec.normalize [Sample.r1; Sample.r2]) []
     = AppendRecords (GoEnv.always 200) Sample.flat0 "example.com"
         [Sample.r1; Sample.r2] [].
Proof.
  split.
  - apply (AppendRecords_reads_view (GoEnv.always 200) Sample.flat0 "example.com").
    reflexivity.
  - apply (AppendRecords_reads_view (GoEnv.always 200) Sample.flat0 "example.com"
             [Sample.r1; Sample.r2] []).
    repeat constructor.
Defined.

Lemma AppendRecords_flat_witness :
  AppendRecords (GoEnv.always 200) Sample.flat0 "example.org" [Sample.r1; Sample.r2] []
  = AppendRecords (GoEnv.always 200) Sample.flat0 "example.com" [Sample.r1; Sample.r2] []
  /\ exists reqs,
       snd (AppendRecords (GoEnv.always 200) Sample.flat0 "example.com"
              [Sample.r1; Sample.r2] []) = ([] ++ reqs)%list
       /\ Forall (fun req => exists body,
                    req = Spec.update_request (Spec.static_account Sample.flat0) body) reqs.
Proof.
  destruct (AppendRecords_flat (GoEnv.always 200) Sample.flat0 "example.com"
              [Sample.r1; Sample.r2] [] eq_refl) as [Hzone Hlog].
  split; [apply Hzone | exact Hlog].
Defined.

Lemma Legacy_reads_view_witness :
  Legacy.AppendRecords (GoEnv.always 200) Sample.flat0 "example.com"
    [Sample.l1; Sample.l2] []
  = Legacy.AppendRecords (GoEnv.always 200) Sample.flat0 "example.com"
      [ {| Legacy.ID := ""; Legacy.Type_ := "TXT"; Legacy.Name := "_acme-challenge";
           Legacy.Value := "one"; Legacy.TTL := 0; Legacy.Priority := 10 |};
        {| Legacy.ID := "other"; Legacy.Type_ := "TXT";
           Legacy.Name := "_acme-challenge.www";
           Legacy.Value := "two"; Legacy.TTL := 86400; Legacy.Priority := 0 |} ] [].
Proof.
  apply (Legacy_reads_view (GoEnv.always 200) Sample.flat0 "example.com").
  reflexivity.
Defined.

Lemma Legacy_AppendRecords_panics_midway_witness :
  Legacy.AppendRecords (GoEnv.always 200) Sample.prov0 "example.com"
    [Sample.l1; Sample.legacy_txt "@" "two"; Sample.l3] []
  = (Panics index_out_of_range,
     [Spec.update_request_bare Sample.acc0 (Sample.body_of "one")]).
Proof.
  apply (Legacy_AppendRecords_panics_midway (GoEnv.always 200) Sample.prov0 "example.com"
           [Sample.l1] (Sample.legacy_txt "@" "two") [Sample.l3] []
           [Spec.update_request_bare Sample.acc0 (Sample.body_of "one")]).
  - econstructor; [|constructor].
    split; [reflexivity|]. exists Sample.acc0. split; vm_compute; reflexivity.
  - reflexivity.
  - vm_compute. reflexivity.
Defined.

(** The errors of the selector. *)
Lemma selectAccount_errors (p : Provider) (zone name : string) (e : error) :
  selectAccount p zone name = Err e ->
  (exists m key,
      Configs p = Some m /\ m !! key = None
      /\ e = errorString ("Config for domain " ++ key ++ " not found"))
  \/ (Configs p = None
      /\ In e [errorString "Username cannot be empty";
               errorString "Password cannot be empty";
               errorString "Subdomain cannot be empty";
               errorString "ServerURL cannot be empty"]).
Proof.
  unfold selectAccount. destruct (Configs p) as [m|].
  - cbv zeta.
    destruct (m !! _) as [cfg|] eqn:Hlook; [discriminate|].
    intros [= <-]. left. eauto.
  - intros H. right. split; [reflexivity|].
    destruct (String.eqb (p_Username p) ""); [injection H as <-; simpl; auto|].
    destruct (String.eqb (p_Password p) ""); [injection H as <-; simpl; auto|].
    destruct (String.eqb (p_Subdomain p) ""); [injection H as <-; simpl; auto|].
    destruct (String.eqb (p_ServerURL p) ""); [injection H as <-; simpl; auto 6|].
    discriminate.
Qed.

(** X12.  An error returned by [AppendRecords] is of one of five kinds:
    the unsupported-type error; an error of the selector for a record of
    the batch, which with a table names a key missing from the table
    and without one names the first empty static field; the error that
    reports a status other than 200; a wrapped error of the transport;
    or a wrapped error of the encoder. *)
Theorem AppendRecords_error_kinds
    (E : Env) (p : Provider) (zone : string)
    (recs l : list Record_) (e : error) (w w' : list http.Request) :
  AppendRecords E p zone recs w = (Returns (l, Some e), w') ->
  e = Spec.unsupported
  \/ (exists r,
        In r recs /\ selectAccount p zone (libdns.Name (RR r)) = Err e
        /\ ((exists m key,
               Configs p = Some m /\ m !! key = None
               /\ e = errorString ("Config for domain " ++ key ++ " not found"))
            \/ (Configs p = None
                /\ In e [errorString "Username cannot be empty";
                         errorString "Password cannot be empty";
                         errorString "Subdomain cannot be empty";
                         errorString "ServerURL cannot be empty"])))
  \/ (exists code,
        code <> 200
        /\ e = errorString ("Updating ACME-DNS record resulted in response code "
                            ++ itoa code))
  \/ (exists err, e = Errorf_w "Error while reading response: " err)
  \/ (exists err, e = Errorf_w "Error while marshalling JSON: " err).
Proof.
  intros Hrun.
  apply AppendRecords_failure in Hrun as (pre & r & post & w1 & -> & _ & Hr & _).
  destruct Hr as [(_ & -> & _) | [(_ & Hsel & _) | (_ & acc & _ & Hupd)]].
  - now left.
  - right; left. exists r. split; [apply in_elt|]. split; [exact Hsel|].
    now apply (selectAccount_errors p zone (libdns.Name (RR r))).
  - right; right.
    destruct (updateTxtValue_cases E acc (libdns.Data (RR r)) w1)
      as [(body & _ & _ & H) | [(body & uerr & _ & _ & H) | (jerr & _ & H)]];
      rewrite H in Hupd.
    + injection Hupd as Hverdict _. unfold Spec.update_verdict in Hverdict.
      destruct (client_Do E w1 (Spec.update_request acc body)) as [resp|err].
      * destruct (Z.eqb_spec (http.StatusCode resp) 200); [discriminate|].
        injection Hverdict as <-. left. eauto.
      * injection Hverdict as <-. right; left. eauto.
    + discriminate.
    + injection Hupd as <- _. right; right. eauto.
Qed.

Lemma AppendRecords_error_kinds_witness :
  errorString "Updating ACME-DNS record resulted in response code 500" = Spec.unsupported
  \/ (exists r,
        In r [Sample.r1; Sample.r2; Sample.r3]
        /\ selectAccount Sample.flat0 "example.com" (libdns.Name (RR r))
           = Err (errorString "Updating ACME-DNS record resulted in response code 500")
        /\ ((exists m key,
               Configs Sample.flat0 = Some m /\ m !! key = None
               /\ errorString "Updating ACME-DNS record resulted in response code 500"
                  = errorString ("Config for domain " ++ key ++ " not found"))
            \/ (Configs Sample.flat0 = None
                /\ In (errorString "Updating ACME-DNS record resulted in response code 500")
                     [errorString "Username cannot be empty";
                      errorString "Password cannot be empty";
                      errorString "Subdomain cannot be empty";
                      errorString "ServerURL cannot be empty"])))
  \/ (exists code,
        code <> 200
        /\ errorString "Updating ACME-DNS record resulted in response code 500"
           = errorString ("Updating ACME-DNS record resulted in response code "
                          ++ itoa code))
  \/ (exists err,
        errorString "Updating ACME-DNS record resulted in response code 500"
        = Errorf_w "Error while reading response: " err)
  \/ (exists err,
        errorString "Updating ACME-DNS record resulted in response code 500"
        = Errorf_w "Error while marshalling JSON: " err).
Proof.
  apply (AppendRecords_error_kinds (GoEnv.failing_at 1 500) Sample.flat0 "example.com"
           [Sample.r1; Sample.r2; Sample.r3] [Spec.normalize Sample.r1]
           (errorString "Updating ACME-DNS record resulted in response code 500") []
           [Spec.update_request Sample.acc0 (Sample.body_of "one");
            Spec.update_request Sample.acc0 (Sample.body_of "two")]).
  vm_compute. reflexivity.
Defined.
